(** * SVG animator: colour resolution, scene classification, layer assembly

    A shallow embedding of the Python package [svg_animator]
    ([svg_parser.py], [svg_to_lottie_converter.py], [animation_builder.py])
    together with the properties its design document states about it.

    Modelling conventions.
    - A Python [str] is a Rocq [string] read as a sequence of code points
      below 256 (Latin-1); the character classes below are Python's
      classes restricted to that range.
    - A Python [float] is [pyfloat]: an exact rational, or an infinity, or
      NaN.  Rounding to 53 bits is not modelled (a finite double stands for
      the rational it approximates); overflow to infinity and the
      [OverflowError] of integer true division are modelled.
    - A Python exception is a value of [exn] carried by [result];
      [try/except] is a match on the result.
    - Console output ([print]) is a list of lines threaded through the
      converter and the builder; the log lines of the parser are not
      modelled.
    - The [lottie] library is available.  The optional [svgelements]
      dependency is not, so documents are loaded by [minidom] ([self.svg]
      stays [None]).
    - The file system is what a call meets: whether the path exists, the
      document that [minidom] parses from it, whether files can be written.
    - Interpreter resource limits (recursion depth, memory) are not
      modelled. *)

From Stdlib Require Import QArith ZArith Ascii String.
From stdpp Require Import gmap strings list fin_maps pretty.

Local Set Warnings "-register-all".

Local Open Scope string_scope.
Local Open Scope Z_scope.

(* ===================================================================== *)
(** ** Exceptions *)
(* ===================================================================== *)

Module Py.

Inductive exn := ValueError | OverflowError | AttributeError.

Inductive result (A : Type) : Type :=
  | Ok (a : A)
  | Raise (e : exn).
Arguments Ok {A} a.
Arguments Raise {A} e.

#[export] Instance result_ret : MRet result := fun A a => Ok a.
#[export] Instance result_bind : MBind result := fun A B f r =>
  match r with
  | Ok a => f a
  | Raise e => Raise e
  end.

#[export] Instance exn_eq_dec : EqDecision exn.
Proof. solve_decision. Defined.

(** [try: body except Exception as e: handler] *)
Definition try_except {A} (body : result A) (handler : exn -> result A) : result A :=
  match body with
  | Ok a => Ok a
  | Raise e => handler e
  end.

(** [try: body except ValueError: pass] around a body that either returns
    ([Some]) or runs to its end ([None]); other exceptions propagate. *)
Definition except_ValueError_pass {A} (body : result (option A)) : result (option A) :=
  match body with
  | Raise ValueError => Ok None
  | r => r
  end.

Definition is_ok {A} (r : result A) : bool :=
  match r with Ok _ => true | Raise _ => false end.

(* ===================================================================== *)
(** ** Characters and strings *)
(* ===================================================================== *)

Definition code (c : ascii) : N := N_of_ascii c.

Definition in_range (lo hi : N) (c : ascii) : bool :=
  ((lo <=? code c) && (code c <=? hi))%N.

(** ['0'..'9']: the only decimal digits below 256, hence [\d]. *)
Definition is_digit (c : ascii) : bool := in_range 48 57 c.

(** [Py_ISSPACE] after [_PyUnicode_TransformDecimalAndSpaceToASCII]: the
    blanks that [int] and [float] strip. *)
Definition is_space_num (c : ascii) : bool :=
  in_range 9 13 c || (code c =? 32)%N || (code c =? 133)%N || (code c =? 160)%N.

(** [Py_UNICODE_ISSPACE]: the class [\s] of a [str] pattern. *)
Definition is_space_re (c : ascii) : bool :=
  is_space_num c || in_range 28 31 c.

(** [str.lower] on one code point. *)
Definition lower_char (c : ascii) : ascii :=
  if in_range 65 90 c || (in_range 192 222 c && negb (code c =? 215)%N)
  then ascii_of_N (code c + 32)
  else c.

Fixpoint lower (s : string) : string :=
  match s with
  | EmptyString => EmptyString
  | String c s' => String (lower_char c) (lower s')
  end.

Definition startswith (p s : string) : bool := String.prefix p s.

(** [s.lstrip(c)] for a one-character set. *)
Fixpoint lstrip (c : ascii) (s : string) : string :=
  match s with
  | String a s' => if Ascii.eqb a c then lstrip c s' else s
  | EmptyString => EmptyString
  end.

(** [s[i:j]] for [0 <= i <= j]; out-of-range bounds are clipped. *)
Definition slice (i j : nat) (s : string) : string := String.substring i (j - i) s.

(** [s[i] + s[i]] where [i < len(s)]. *)
Definition twice_at (i : nat) (s : string) : string :=
  match String.get i s with
  | Some c => String c (String c EmptyString)
  | None => EmptyString
  end.

(** Longest prefix whose characters satisfy [p], and the rest. *)
Fixpoint span (p : ascii -> bool) (s : string) : string * string :=
  match s with
  | String c s' =>
      if p c then let '(a, b) := span p s' in (String c a, b)
      else (EmptyString, s)
  | EmptyString => (EmptyString, EmptyString)
  end.

Fixpoint drop_while (p : ascii -> bool) (s : string) : string :=
  match s with
  | String c s' => if p c then drop_while p s' else s
  | EmptyString => EmptyString
  end.

(** Remove the characters that satisfy [p]: [re.sub(cls, '', s)]. *)
Fixpoint remove_chars (p : ascii -> bool) (s : string) : string :=
  match s with
  | String c s' => if p c then remove_chars p s' else String c (remove_chars p s')
  | EmptyString => EmptyString
  end.

(** Drop the longest suffix whose characters satisfy [p]. *)
Fixpoint drop_while_end (p : ascii -> bool) (s : string) : string :=
  match s with
  | String c s' =>
      match drop_while_end p s' with
      | EmptyString => if p c then EmptyString else String c EmptyString
      | kept => String c kept
      end
  | EmptyString => EmptyString
  end.

(** The blanks that [int] and [float] strip at both ends. *)
Definition strip_num (s : string) : string :=
  drop_while_end is_space_num (drop_while is_space_num s).

Fixpoint all_chars (p : ascii -> bool) (s : string) : bool :=
  match s with
  | String c s' => p c && all_chars p s'
  | EmptyString => true
  end.

Fixpoint drop_prefix (p s : string) : option string :=
  match p, s with
  | EmptyString, _ => Some s
  | String a p', String b s' => if Ascii.eqb a b then drop_prefix p' s' else None
  | String _ _, EmptyString => None
  end.

(* ===================================================================== *)
(** ** Numbers *)
(* ===================================================================== *)

Inductive pyfloat :=
  | Fin (q : Q)
  | PInf
  | NInf
  | NaN.

(** Least magnitude that rounds to an infinity: half an ulp above the
    largest double. *)
Definition overflow_bound : Z := 2 ^ 1024 - 2 ^ 970.

Definition round_overflow (q : Q) : pyfloat :=
  if Qle_bool (inject_Z overflow_bound) q then PInf
  else if Qle_bool q (inject_Z (- overflow_bound)) then NInf
  else Fin (Qred q).

Definition F0 : pyfloat := Fin 0.
Definition F1 : pyfloat := Fin 1.

(** [n / d] on integers with [0 < d]: correctly rounded, and
    [OverflowError] when the quotient is too large for a float. *)
Definition truediv (n d : Z) : result pyfloat :=
  match round_overflow (n # Z.to_pos d) with
  | Fin q => Ok (Fin q)
  | _ => Raise OverflowError
  end.

Definition fadd (a b : pyfloat) : pyfloat :=
  match a, b with
  | Fin x, Fin y => round_overflow (x + y)
  | NaN, _ | _, NaN => NaN
  | PInf, NInf | NInf, PInf => NaN
  | PInf, _ | _, PInf => PInf
  | NInf, _ | _, NInf => NInf
  end.

(** [a / 2] and [a * 2] on floats. *)
Definition fhalf (a : pyfloat) : pyfloat :=
  match a with
  | Fin x => Fin (Qred (x / 2))
  | other => other
  end.

Definition fdouble (a : pyfloat) : pyfloat :=
  match a with
  | Fin x => round_overflow (x * 2)
  | other => other
  end.

(** Value of a digit in [_PyLong_DigitValue]; 37 for a non-digit. *)
Definition digit_value (c : ascii) : Z :=
  if is_digit c then Z.of_N (code c) - 48
  else if in_range 97 122 c then Z.of_N (code c) - 87
  else if in_range 65 90 c then Z.of_N (code c) - 55
  else 37.

Definition underscore : ascii := "_"%char.

(** Digits and single interior underscores up to the end of the string:
    the scan of [long_from_string_base].  [prev] tells whether the previous
    character was an underscore, [acc] is the value so far and [n] the
    number of digits seen. *)
Fixpoint scan_digits (base : Z) (prev : bool) (acc : Z) (n : nat) (s : string)
  : option (Z * nat * string) :=
  match s with
  | String c s' =>
      if Ascii.eqb c underscore then
        if prev then None else scan_digits base true acc n s'
      else if digit_value c <? base then
        scan_digits base false (acc * base + digit_value c) (S n) s'
      else if prev then None else Some (acc, n, s)
  | EmptyString => if prev then None else Some (acc, n, EmptyString)
  end.

Definition max_str_digits : nat := 4300.

(** [int(s, base)] for [base] 10 or 16. *)
Definition py_int (base : Z) (s : string) : result Z :=
  let s1 := drop_while is_space_num s in
  let '(sign, s2) :=
    match s1 with
    | String "+" r => (1, r)
    | String "-" r => (-1, r)
    | _ => (1, s1)
    end in
  let s3 :=
    match s2 with
    | String "0" (String x r) =>
        if (base =? 16) && (Ascii.eqb x "x" || Ascii.eqb x "X") then
          match r with
          | String "_" r' => r'
          | _ => r
          end
        else s2
    | _ => s2
    end in
  match s3 with
  | String "_" _ => Raise ValueError
  | _ =>
      match scan_digits base false 0 0 s3 with
      | Some (v, n, rest) =>
          if (n =? 0)%nat then Raise ValueError
          else if negb (base =? 16) && (max_str_digits <? n)%nat then Raise ValueError
          else
            match drop_while is_space_num rest with
            | EmptyString => Ok (sign * v)
            | _ => Raise ValueError
            end
      | None => Raise ValueError
      end
  end.

(** Value of a string of decimal digits. *)
Fixpoint digits_value (acc : Z) (s : string) : Z :=
  match s with
  | String c s' => digits_value (acc * 10 + (Z.of_N (code c) - 48)) s'
  | EmptyString => acc
  end.

(** The underscore rule of [_Py_string_to_number_with_underscores]: every
    underscore stands between two digits.  Returns the string without its
    underscores. *)
Fixpoint remove_underscores (prev : ascii) (s : string) : option string :=
  match s with
  | String c s' =>
      if Ascii.eqb c underscore then
        if is_digit prev then remove_underscores c s' else None
      else if Ascii.eqb prev underscore && negb (is_digit c) then None
      else String c <$> remove_underscores c s'
  | EmptyString => if Ascii.eqb prev underscore then None else Some EmptyString
  end.

(** [_Py_parse_inf_or_nan] after the sign, on the whole remaining string. *)
Definition parse_inf_or_nan (negative : bool) (s : string) : option pyfloat :=
  let l := lower s in
  if bool_decide (l = "inf") || bool_decide (l = "infinity")
  then Some (if negative then NInf else PInf)
  else if bool_decide (l = "nan") then Some NaN
  else None.

(** Optional exponent [e[+-]digits] at the end of the string.  An exponent
    that is not complete is left unread, as is anything else. *)
Definition parse_exponent (s : string) : option Z :=
  match s with
  | EmptyString => Some 0
  | String c r =>
      if Ascii.eqb c "e" || Ascii.eqb c "E" then
        let '(neg, r1) :=
          match r with
          | String "+" r' => (false, r')
          | String "-" r' => (true, r')
          | _ => (false, r)
          end in
        let '(ds, rest) := span is_digit r1 in
        match ds, rest with
        | String _ _, EmptyString =>
            Some (if neg then - digits_value 0 ds else digits_value 0 ds)
        | _, _ => None
        end
      else None
  end.

Definition pow10 (m : Z) (e : Z) : Q :=
  if 0 <=? e then inject_Z (m * 10 ^ e) else m # Z.to_pos (10 ^ (- e)).

(** [float(s)] for a string [s]. *)
Definition py_float (s : string) : result pyfloat :=
  match remove_underscores "000"%char (strip_num s) with
  | None => Raise ValueError
  | Some t =>
      let '(negative, t1) :=
        match t with
        | String c r =>
            if Ascii.eqb c "+" then (false, r)
            else if Ascii.eqb c "-" then (true, r)
            else (false, t)
        | EmptyString => (false, t)
        end in
      let '(ip, r1) := span is_digit t1 in
      let '(fp, r2) :=
        match r1 with
        | String c r => if Ascii.eqb c "." then span is_digit r else (EmptyString, r1)
        | EmptyString => (EmptyString, r1)
        end in
      match ip +:+ fp with
      | EmptyString =>
          match parse_inf_or_nan negative t1 with
          | Some v => Ok v
          | None => Raise ValueError
          end
      | String _ _ as ds =>
          match parse_exponent r2 with
          | Some e =>
              let m := digits_value 0 ds in
              let q := pow10 m (e - Z.of_nat (String.length fp)) in
              Ok (round_overflow (if negative then (- q)%Q else q))
          | None => Raise ValueError
          end
      end
  end.

(** [s.endswith(p)] *)
Definition endswith (p s : string) : bool :=
  (String.length p <=? String.length s)%nat
  && bool_decide (String.substring (String.length s - String.length p)
                                   (String.length p) s = p).

(** A [for] loop whose body may raise: the state after the last turn, or
    the first exception. *)
Fixpoint for_each {A B} (body : B -> A -> result B) (st : B) (l : list A) : result B :=
  match l with
  | [] => Ok st
  | x :: rest => st' ← body st x; for_each body st' rest
  end.

End Py.

Import Py.

(* ===================================================================== *)
(** ** Documents as [minidom] presents them *)
(* ===================================================================== *)

Module Dom.

(** A node is an element or a node of any other type (text, comment,
    CDATA, processing instruction). *)
Inductive node :=
  | Element (tagName : string) (attributes : list (string * string))
            (childNodes : list node)
  | CharData (data : string).

(** [node.getAttribute(name)]: the value, or the empty string. *)
Fixpoint getAttribute (attributes : list (string * string)) (name : string) : string :=
  match attributes with
  | (k, v) :: rest => if decide (k = name) then v else getAttribute rest name
  | [] => EmptyString
  end.

(** [a or b] on strings. *)
Definition str_or (a b : string) : string :=
  match a with EmptyString => b | _ => a end.

(** [float(a or 0)], [float(a or 5)], ...: [dflt] is the float of the
    integer literal. *)
Definition float_or (a : string) (dflt : pyfloat) : result pyfloat :=
  match a with EmptyString => Ok dflt | _ => py_float a end.

End Dom.

(* ===================================================================== *)
(** ** svg_parser.py: class SVGParser *)
(* ===================================================================== *)

Module SVGParser.
Import Dom.

(** The dictionaries stored under ['original_elements']. *)
Inductive element_data :=
  | CircleData (cx cy r : pyfloat) (fill : string)
  | RectData (x y width height : pyfloat) (fill : string)
  | PathData (d : string) (fill : string)
  | PolyData (type : string) (points : string) (fill : string).

Definition data_type (e : element_data) : string :=
  match e with
  | CircleData _ _ _ _ => "circle"
  | RectData _ _ _ _ _ => "rect"
  | PathData _ _ => "path"
  | PolyData t _ _ => t
  end.

Definition data_fill (e : element_data) : string :=
  match e with
  | CircleData _ _ _ f | RectData _ _ _ _ f | PathData _ f | PolyData _ _ f => f
  end.

Record structure_entry := { entry_type : string; entry_parent : option string }.

Record element_groups_t := {
  groups : list string;
  paths : list string;
  shapes : list string;
  original_elements : gmap string (list element_data)
}.

Definition empty_groups : element_groups_t :=
  {| groups := []; paths := []; shapes := []; original_elements := ∅ |}.

(** The fields of a parser instance ([self.svg] is always [None]). *)
Record t := {
  svg_doc : option node;
  element_groups : element_groups_t;
  structure_map : gmap string structure_entry
}.

Definition init : t :=
  {| svg_doc := None; element_groups := empty_groups; structure_map := ∅ |}.

(** [load_svg(svg_path)], where [file] is what [minidom.parse(svg_path)]
    yields: the document element, or [None] when it raises. *)
Definition load_svg (self : t) (file : option node) : t * bool :=
  match file with
  | Some doc =>
      ({| svg_doc := Some doc; element_groups := element_groups self;
          structure_map := structure_map self |}, true)
  | None =>
      ({| svg_doc := None; element_groups := element_groups self;
          structure_map := structure_map self |}, false)
  end.

(** The dictionary literals shared by [_save_node_content] and
    [_extract_node_elements]; the [float] calls run in source order. *)
Definition circle_dict (a : list (string * string)) : result element_data :=
  cx ← float_or (getAttribute a "cx") (Fin 0);
  cy ← float_or (getAttribute a "cy") (Fin 0);
  r ← float_or (getAttribute a "r") (Fin 5);
  mret (CircleData cx cy r (str_or (getAttribute a "fill") "black")).

Definition rect_dict (a : list (string * string)) : result element_data :=
  x ← float_or (getAttribute a "x") (Fin 0);
  y ← float_or (getAttribute a "y") (Fin 0);
  w ← float_or (getAttribute a "width") (Fin 10);
  h ← float_or (getAttribute a "height") (Fin 10);
  mret (RectData x y w h (str_or (getAttribute a "fill") "black")).

Definition path_dict (a : list (string * string)) : element_data :=
  PathData (str_or (getAttribute a "d") "M0,0") (str_or (getAttribute a "fill") "none").

Definition poly_dict (tag : string) (a : list (string * string)) : element_data :=
  PolyData tag (getAttribute a "points") (str_or (getAttribute a "fill") "none").

Definition is_element (n : node) : bool :=
  match n with Element _ _ _ => true | CharData _ => false end.

Definition is_shape_tag (tag : string) : bool :=
  bool_decide (tag ∈ ["circle"; "rect"; "ellipse"; "polygon"; "polyline"]).

(** [_extract_node_elements(node)]: an exception inside is swallowed. *)
Fixpoint _extract_node_elements (n : node) : list element_data :=
  match n with
  | CharData _ => []
  | Element tag a children =>
      if decide (tag = "circle") then
        match circle_dict a with Ok e => [e] | Raise _ => [] end
      else if decide (tag = "rect") then
        match rect_dict a with Ok e => [e] | Raise _ => [] end
      else if decide (tag = "path") then [path_dict a]
      else if bool_decide (tag ∈ ["polygon"; "polyline"]) then [poly_dict tag a]
      else if decide (tag = "g") then flat_map _extract_node_elements children
      else []
  end.

(** The list built by [_save_node_content], or the exception that makes
    it store nothing. *)
Definition node_content (tag : string) (a : list (string * string))
    (children : list node) : result (list element_data) :=
  if decide (tag = "circle") then e ← circle_dict a; mret [e]
  else if decide (tag = "rect") then e ← rect_dict a; mret [e]
  else if decide (tag = "path") then mret [path_dict a]
  else if bool_decide (tag ∈ ["polygon"; "polyline"]) then mret [poly_dict tag a]
  else if decide (tag = "g") then mret (flat_map _extract_node_elements children)
  else mret [].

Definition set_original (eg : element_groups_t) (m : gmap string (list element_data))
  : element_groups_t :=
  {| groups := groups eg; paths := paths eg; shapes := shapes eg;
     original_elements := m |}.

(** [_save_node_content(element_id, node)] on the element groups. *)
Definition _save_node_content (element_id tag : string) (a : list (string * string))
    (children : list node) (eg : element_groups_t) : element_groups_t :=
  match node_content tag a children with
  | Ok (e :: es) => set_original eg (<[element_id := e :: es]> (original_elements eg))
  | Ok [] => eg
  | Raise _ => eg
  end.

(** The classification step of [process_node]. *)
Definition classify (element_id tag : string) (eg : element_groups_t) : element_groups_t :=
  if decide (tag = "g") then
    {| groups := groups eg ++ [element_id]; paths := paths eg; shapes := shapes eg;
       original_elements := original_elements eg |}
  else if decide (tag = "path") then
    {| groups := groups eg; paths := paths eg ++ [element_id]; shapes := shapes eg;
       original_elements := original_elements eg |}
  else if is_shape_tag tag then
    {| groups := groups eg; paths := paths eg; shapes := shapes eg ++ [element_id];
       original_elements := original_elements eg |}
  else eg.

(** [element_id = node.getAttribute('id') or f"element_{len(self.structure_map)}"] *)
Definition element_id_of (a : list (string * string))
    (m : gmap string structure_entry) : string :=
  str_or (getAttribute a "id") ("element_" +:+ pretty (size m)).

(** [process_node(node, parent_id)], the local function of
    [_analyze_with_minidom], on the pair of the structure map and the
    element groups. *)
Fixpoint process_node (n : node) (parent_id : option string)
    (st : gmap string structure_entry * element_groups_t)
  : gmap string structure_entry * element_groups_t :=
  match n with
  | CharData _ => st
  | Element tag a children =>
      let element_id := element_id_of a st.1 in
      let m := <[element_id := {| entry_type := tag; entry_parent := parent_id |}]> st.1 in
      let eg := classify element_id tag (_save_node_content element_id tag a children st.2) in
      foldl (fun acc child => process_node child (Some element_id) acc) (m, eg) children
  end.

(** [_analyze_with_minidom()]: with no document loaded the attribute
    access raises and the handler only logs. *)
Definition _analyze_with_minidom (self : t) : t :=
  match svg_doc self with
  | Some doc =>
      let '(m, eg) := process_node doc None (structure_map self, element_groups self) in
      {| svg_doc := svg_doc self; element_groups := eg; structure_map := m |}
  | None => self
  end.

(** [analyze_structure()]: the new state and the flatness verdict. *)
Definition analyze_structure (self : t) : t * bool :=
  let self1 := {| svg_doc := svg_doc self; element_groups := empty_groups;
                  structure_map := structure_map self |} in
  let self2 := _analyze_with_minidom self1 in
  let eg := element_groups self2 in
  (self2, bool_decide (length (groups eg) < 3)%nat && bool_decide (20 < length (paths eg))%nat).

Definition get_element_groups (self : t) : element_groups_t := element_groups self.

(** [get_element_by_id(element_id)] *)
Definition get_element_by_id (self : t) (element_id : string) : option (list element_data) :=
  original_elements (element_groups self) !! element_id.

(** The character class [[^0-9.]] of [get_svg_size]. *)
Definition not_numeric (c : ascii) : bool := negb (is_digit c || Ascii.eqb c ".").

(** [get_svg_size()]: any exception in the body is logged and replaced by
    the default size. *)
Definition get_svg_size (self : t) : result (pyfloat * pyfloat) :=
  try_except
    (match svg_doc self with
     | Some (Element _ a _) =>
         let width := str_or (getAttribute a "width") "800" in
         let height := str_or (getAttribute a "height") "600" in
         let width := remove_chars not_numeric width in
         let height := remove_chars not_numeric height in
         w ← py_float width;
         h ← py_float height;
         mret (w, h)
     | _ => Raise AttributeError
     end)
    (fun _ => Ok (Fin 800, Fin 600)).

(** [get_elements_by_type(element_type)] *)
Definition get_elements_by_type (self : t) (element_type : string) : list string :=
  if decide (element_type = "path") then paths (element_groups self)
  else if bool_decide (element_type ∈ ["rect"; "circle"; "ellipse"; "polygon"; "polyline"])
  then
    filter (fun eid =>
              lower (from_option entry_type "" (structure_map self !! eid))
              = lower element_type)
           (shapes (element_groups self))
  else if decide (element_type = "group") then groups (element_groups self)
  else [].

End SVGParser.

(* ===================================================================== *)
(** ** The objects of the [lottie] library that the converter builds *)
(* ===================================================================== *)

Module Lottie.

Definition color : Type := pyfloat * pyfloat * pyfloat * pyfloat.

Inductive shape :=
  | Path (value : list (list Z))
  | Rect (position size : pyfloat * pyfloat)
  | Ellipse (position size : pyfloat * pyfloat)
  | Fill (value : color).

(** [objects.Group]: the shapes handed to [add_shape], in order. *)
Definition Group : Type := list shape.

Record ShapeLayer := { name : string; shapes : list Group }.

(** [objects.Animation]; its name, the stem of the file name, is left out. *)
Record Animation := {
  n_frames : Z;
  framerate : Z;
  width : pyfloat;
  height : pyfloat;
  layers : list ShapeLayer
}.

(** [layer.add_shape(shape_group)] *)
Definition add_shape (layer : ShapeLayer) (g : Group) : ShapeLayer :=
  {| name := name layer; shapes := shapes layer ++ [g] |}.

(** [animation.add_layer(layer)] *)
Definition add_layer (an : Animation) (layer : ShapeLayer) : Animation :=
  {| n_frames := n_frames an; framerate := framerate an; width := width an;
     height := height an; layers := layers an ++ [layer] |}.

End Lottie.

(* ===================================================================== *)
(** ** Texts: what is printed and what is put into result messages *)
(* ===================================================================== *)

Inductive text :=
  | TParsing              (* convert: parsing the SVG file *)
  | TLoadError            (* convert: the SVG file cannot be loaded *)
  | TCreating             (* convert: creating the animation *)
  | TSaving               (* convert: saving the JSON *)
  | TSaveError            (* convert: saving the JSON failed *)
  | TPreviewError         (* create_lottie_preview_html: writing the preview failed *)
  | TPathError (e : exn)  (* _add_path_to_layer: adding the path failed with e *)
  | TShapeError (e : exn) (* _add_shape_to_layer: adding the shape failed with e *)
  | TStep (k : nat)       (* process_svg: step k of 3 *)
  | TInputNotFound        (* process_svg: the input file does not exist *)
  | TCannotLoad           (* process_svg: the SVG file cannot be loaded *)
  | TPreviewCreated       (* process_svg: a preview was created *)
  | TConversionFailed.    (* process_svg: the conversion failed *)

#[export] Instance text_eq_dec : EqDecision text.
Proof. solve_decision. Defined.

(* ===================================================================== *)
(** ** svg_to_lottie_converter.py: class SVGToLottieConverter *)
(* ===================================================================== *)

Module SVGToLottieConverter.
Import Dom Lottie.
Import SVGParser(element_data(..), element_groups_t, data_type, data_fill).

Record t := { verbose : bool; parser : SVGParser.t }.

Definition init (verbose : bool) : t :=
  {| verbose := verbose; parser := SVGParser.init |}.

(** [self.log(message)], and [if self.verbose: print(message)]. *)
Definition log (verbose : bool) (message : text) (console : list text) : list text :=
  if verbose then console ++ [message] else console.

(** The user's [animation_config]: a key that is absent is [None]. *)
Record animation_config := {
  cfg_n_frames : option Z;
  cfg_framerate : option Z;
  cfg_width : option pyfloat;
  cfg_height : option pyfloat;
  cfg_background_color : option string
}.

Definition empty_config : animation_config :=
  {| cfg_n_frames := None; cfg_framerate := None; cfg_width := None;
     cfg_height := None; cfg_background_color := None |}.

(** [_parse_svg_path(d_string)].  The handler is kept as written; the
    body cannot raise. *)
Definition _parse_svg_path (d_string : string) : result (list (list Z)) :=
  try_except
    (Ok [[0; 0; 0]; [1; 2; 0; 0; 0; 0]])
    (fun _ => Ok []).

Definition color_map : gmap string color :=
  list_to_map
    [("black", (F0, F0, F0, F1)); ("white", (F1, F1, F1, F1));
     ("red", (F1, F0, F0, F1)); ("green", (F0, F1, F0, F1));
     ("blue", (F0, F0, F1, F1)); ("yellow", (F1, F1, F0, F1));
     ("cyan", (F0, F1, F1, F1)); ("magenta", (F1, F0, F1, F1));
     ("none", (F0, F0, F0, F0))].

Definition default_color : color := (F0, F0, F0, F1).

(** [int(s, 16) / 255] *)
Definition hex_channel (s : string) : result pyfloat :=
  n ← py_int 16 s; truediv n 255.

(** The body of the [try] under [if color_str.startswith('#')]. *)
Definition hex_body (color_str : string) : result (option color) :=
  let color := lstrip "#" color_str in
  if decide (String.length color = 3%nat) then
    r ← hex_channel (twice_at 0 color);
    g ← hex_channel (twice_at 1 color);
    b ← hex_channel (twice_at 2 color);
    mret (Some (r, g, b, F1))
  else if decide (String.length color = 6%nat) then
    r ← hex_channel (slice 0 2 color);
    g ← hex_channel (slice 2 4 color);
    b ← hex_channel (slice 4 6 color);
    mret (Some (r, g, b, F1))
  else if decide (String.length color = 8%nat) then
    r ← hex_channel (slice 0 2 color);
    g ← hex_channel (slice 2 4 color);
    b ← hex_channel (slice 4 6 color);
    a ← hex_channel (slice 6 8 color);
    mret (Some (r, g, b, a))
  else mret None.

(** [\s*] *)
Definition skip_spaces (s : string) : string := drop_while is_space_re s.

(** [\s*(\d+)\s*] followed by the literal [stop]: the group and the rest.
    The classes are disjoint from each other and from what follows them,
    so the longest match is the only one. *)
Definition number_then (stop : string) (s : string) : option (string * string) :=
  let '(ds, r) := span is_digit (skip_spaces s) in
  match ds with
  | EmptyString => None
  | _ => rest ← drop_prefix stop (skip_spaces r); Some (ds, rest)
  end.

(** [re.match(r'rgb\(\s*(\d+)\s*,\s*(\d+)\s*,\s*(\d+)\s*\)', s)]: the three
    groups. *)
Definition rgb_match (s : string) : option (string * string * string) :=
  r0 ← drop_prefix "rgb(" s;
  '(g1, r1) ← number_then "," r0;
  '(g2, r2) ← number_then "," r1;
  '(g3, _) ← number_then ")" r2;
  Some (g1, g2, g3).

(** The class [[\d\.]] *)
Definition is_digit_or_dot (c : ascii) : bool := is_digit c || Ascii.eqb c ".".

(** [re.match(r'rgba\(\s*(\d+)\s*,\s*(\d+)\s*,\s*(\d+)\s*,\s*([\d\.]+)\s*\)', s)]:
    the four groups. *)
Definition rgba_match (s : string) : option (string * string * string * string) :=
  r0 ← drop_prefix "rgba(" s;
  '(g1, r1) ← number_then "," r0;
  '(g2, r2) ← number_then "," r1;
  '(g3, r3) ← number_then "," r2;
  let '(g4, r4) := span is_digit_or_dot (skip_spaces r3) in
  match g4 with
  | EmptyString => None
  | _ => _ ← drop_prefix ")" (skip_spaces r4); Some (g1, g2, g3, g4)
  end.

(** [int(group) / 255] *)
Definition dec_channel (s : string) : result pyfloat :=
  n ← py_int 10 s; truediv n 255.

Definition rgb_body (color_str : string) : result (option color) :=
  match rgb_match color_str with
  | Some (g1, g2, g3) =>
      except_ValueError_pass
        (r ← dec_channel g1; g ← dec_channel g2; b ← dec_channel g3;
         mret (Some (r, g, b, F1)))
  | None => Ok None
  end.

Definition rgba_body (color_str : string) : result (option color) :=
  match rgba_match color_str with
  | Some (g1, g2, g3, g4) =>
      except_ValueError_pass
        (r ← dec_channel g1; g ← dec_channel g2; b ← dec_channel g3;
         a ← py_float g4;
         mret (Some (r, g, b, a)))
  | None => Ok None
  end.

(** [_parse_color(color_str)] *)
Definition _parse_color (color_str : string) : result color :=
  if bool_decide (color_str = "") || bool_decide (lower color_str = "none") then
    Ok (F0, F0, F0, F0)
  else
    match color_map !! lower color_str with
    | Some c => Ok c
    | None =>
        hex ← (if startswith "#" color_str
               then except_ValueError_pass (hex_body color_str)
               else Ok None);
        match hex with
        | Some c => Ok c
        | None =>
            rgb ← rgb_body color_str;
            match rgb with
            | Some c => Ok c
            | None =>
                rgba ← rgba_body color_str;
                match rgba with
                | Some c => Ok c
                | None => Ok default_color
                end
            end
        end
    end.

(** [_add_path_to_layer(layer, path_data)] on the layer and the console. *)
Definition _add_path_to_layer (verbose : bool) (path_data : element_data)
    (st : ShapeLayer * list text) : ShapeLayer * list text :=
  match path_data with
  | PathData d fill =>
      match
        (value ← _parse_svg_path d;
         fill_color ← _parse_color fill;
         mret [Path value; Fill fill_color])
      with
      | Ok shape_group => (add_shape st.1 shape_group, st.2)
      | Raise e => (st.1, log verbose (TPathError e) st.2)
      end
  | _ => st
  end.

(** [_add_shape_to_layer(layer, shape_data)]; the stored attributes are
    floats already, which [float] returns unchanged. *)
Definition _add_shape_to_layer (verbose : bool) (shape_data : element_data)
    (st : ShapeLayer * list text) : ShapeLayer * list text :=
  let geometry :=
    match shape_data with
    | RectData x y w h _ => [Rect (fadd x (fhalf w), fadd y (fhalf h)) (w, h)]
    | CircleData cx cy r _ => [Ellipse (cx, cy) (fdouble r, fdouble r)]
    | _ => []
    end in
  match _parse_color (data_fill shape_data) with
  | Ok fill_color => (add_shape st.1 (geometry ++ [Fill fill_color])%list, st.2)
  | Raise e => (st.1, log verbose (TShapeError e) st.2)
  end.

(** One turn of the loops over ['paths'] and ['shapes']: look the
    identifier up and hand the first stored element on. *)
Definition add_by_id
    (add : element_data -> ShapeLayer * list text -> ShapeLayer * list text)
    (self : t) (st : ShapeLayer * list text) (element_id : string)
  : ShapeLayer * list text :=
  match SVGParser.get_element_by_id (parser self) element_id with
  | Some (first :: _) => add first st
  | _ => st
  end.

(** One turn of the loop over the elements of a group. *)
Definition add_group_element (verbose : bool) (st : ShapeLayer * list text)
    (element : element_data) : ShapeLayer * list text :=
  if decide (data_type element = "path") then _add_path_to_layer verbose element st
  else if bool_decide (data_type element ∈ ["rect"; "circle"; "polygon"; "polyline"])
  then _add_shape_to_layer verbose element st
  else st.

(** [enumerate(l)] *)
Definition enumerate {A} (l : list A) : list (nat * A) := imap (fun i x => (i, x)) l.

(** One turn of the loop over ['groups']. *)
Definition add_group_layer (self : t) (st : Animation * list text)
    (item : nat * string) : Animation * list text :=
  match SVGParser.get_element_by_id (parser self) item.2 with
  | Some (e :: es) =>
      let group_layer := {| name := "Group " +:+ pretty (item.1 + 1)%nat; shapes := [] |} in
      let '(layer, console) :=
        foldl (add_group_element (verbose self)) (group_layer, st.2) (e :: es) in
      (add_layer st.1 layer, console)
  | _ => st
  end.

(** [_process_element_groups(animation, element_groups)] *)
Definition _process_element_groups (self : t) (animation : Animation)
    (element_groups : element_groups_t) (console : list text)
  : Animation * list text :=
  let main_layer := {| name := "Main Elements"; shapes := [] |} in
  let st1 := foldl (add_by_id (_add_path_to_layer (verbose self)) self)
                   (main_layer, console) (SVGParser.paths element_groups) in
  let st2 := foldl (add_by_id (_add_shape_to_layer (verbose self)) self)
                   st1 (SVGParser.shapes element_groups) in
  foldl (add_group_layer self) (add_layer animation st2.1, st2.2)
        (enumerate (SVGParser.groups element_groups)).

(** [rgb = tuple(int(color[i:i+2], 16)/255 for i in (0, 2, 4))] and the
    colour built from it. *)
Definition background_fill (background_color : string) : result color :=
  let color := lstrip "#" background_color in
  r ← hex_channel (slice 0 2 color);
  g ← hex_channel (slice 2 4 color);
  b ← hex_channel (slice 4 6 color);
  mret (r, g, b, F1).

(** The background layer of [convert_svg_to_lottie]. *)
Definition background_layer (an_width an_height : pyfloat) (background_color : string)
  : result ShapeLayer :=
  let layer := {| name := "Background"; shapes := [] |} in
  match background_color with
  | EmptyString => Ok layer
  | _ =>
      c ← background_fill background_color;
      mret (add_shape layer
              [Rect (fhalf an_width, fhalf an_height) (an_width, an_height); Fill c])
  end.

(** [convert_svg_to_lottie(svg_path, json_path, animation_config)].
    [file] is what [minidom.parse(svg_path)] yields and [export_ok] tells
    whether [export_lottie] returns.  The result is the new state, the
    animation that was written ([None] where the method returns [None])
    and the console; an exception that the method lets through is
    [Raise].  The size that the method asks the parser for is never used,
    because the merged configuration always holds a width and a height. *)
Definition convert_svg_to_lottie (self : t) (file : option node) (export_ok : bool)
    (animation_config : animation_config) (console : list text)
  : result (t * option Animation * list text) :=
  let n := default 90 (cfg_n_frames animation_config) in
  let fr := default 30 (cfg_framerate animation_config) in
  let w := default (Fin 800) (cfg_width animation_config) in
  let h := default (Fin 600) (cfg_height animation_config) in
  let bg := default "#ffffff" (cfg_background_color animation_config) in
  let console := log (verbose self) TParsing console in
  let '(p1, loaded) := SVGParser.load_svg (parser self) file in
  if negb loaded then
    Ok ({| verbose := verbose self; parser := p1 |}, None,
        log (verbose self) TLoadError console)
  else
    let p2 := (SVGParser.analyze_structure p1).1 in
    let self' := {| verbose := verbose self; parser := p2 |} in
    let element_groups := SVGParser.get_element_groups p2 in
    let console := log (verbose self) TCreating console in
    let an := {| n_frames := n; framerate := fr; width := w; height := h; layers := [] |} in
    background ← background_layer w h bg;
    let an := add_layer an background in
    let '(an, console) := _process_element_groups self' an element_groups console in
    let console := log (verbose self) TSaving console in
    if export_ok then Ok (self', Some an, console)
    else Ok (self', None, log (verbose self) TSaveError console).

End SVGToLottieConverter.

(* ===================================================================== *)
(** ** animation_builder.py: class AnimationBuilder *)
(* ===================================================================== *)

Module AnimationBuilder.
Import Dom Lottie.
Import SVGToLottieConverter.

Record t := {
  verbose : bool;
  parser : SVGParser.t;
  lottie_converter : SVGToLottieConverter.t
}.

Definition init (verbose : bool) : t :=
  {| verbose := verbose; parser := SVGParser.init;
     lottie_converter := SVGToLottieConverter.init verbose |}.

(** What one call of [process_svg] meets outside the program. *)
Record env := {
  path_exists : bool;        (* os.path.exists(svg_path) *)
  file : option node;        (* minidom.parse(svg_path), None when it raises *)
  export_ok : bool;          (* export_lottie returns *)
  preview_ok : bool          (* the preview file can be written *)
}.

Inductive output_file := JsonFile | HtmlFile.

Record structure_info_t := {
  is_flat : bool;
  n_groups : nat;
  n_paths : nat;
  n_shapes : nat;
  dimensions : pyfloat * pyfloat
}.

(** The dictionary that [process_svg] returns, without its constant
    entries (the input file and the format), and the animation that was
    written to the JSON file, if any. *)
Record process_result := {
  success : bool;
  output_files : list output_file;
  messages : list text;
  structure_info : option structure_info_t;
  written : option Animation
}.

Definition failed (messages : list text) : process_result :=
  {| success := false; output_files := []; messages := messages;
     structure_info := None; written := None |}.

(** [process_svg(svg_path, output_path, animation_config)].  The method
    also writes the width and the height into the dictionary of its caller;
    the model hands the completed configuration to the converter only. *)
Definition process_svg (self : t) (e : env) (animation_config : option animation_config)
    (console : list text) : result (t * process_result * list text) :=
  if negb (path_exists e) then Ok (self, failed [TInputNotFound], console)
  else
    let console := log (verbose self) (TStep 1) console in
    let '(p1, loaded) := SVGParser.load_svg (parser self) (file e) in
    if negb loaded then
      Ok ({| verbose := verbose self; parser := p1;
             lottie_converter := lottie_converter self |},
          failed [TCannotLoad], console)
    else
      let console := log (verbose self) (TStep 2) console in
      let '(p2, flat) := SVGParser.analyze_structure p1 in
      let element_groups := SVGParser.get_element_groups p2 in
      size ← SVGParser.get_svg_size p2;
      let info :=
        {| is_flat := flat;
           n_groups := length (SVGParser.groups element_groups);
           n_paths := length (SVGParser.paths element_groups);
           n_shapes := length (SVGParser.shapes element_groups);
           dimensions := size |} in
      let console := log (verbose self) (TStep 3) console in
      let config := default SVGToLottieConverter.empty_config animation_config in
      let config :=
        {| cfg_n_frames := cfg_n_frames config;
           cfg_framerate := cfg_framerate config;
           cfg_width := Some (default size.1 (cfg_width config));
           cfg_height := Some (default size.2 (cfg_height config));
           cfg_background_color := cfg_background_color config |} in
      '(conv, json, console) ←
        SVGToLottieConverter.convert_svg_to_lottie
          (lottie_converter self) (file e) (export_ok e) config console;
      let self' := {| verbose := verbose self; parser := p2; lottie_converter := conv |} in
      match json with
      | Some an =>
          Ok (self',
              {| success := true;
                 output_files := JsonFile :: (if preview_ok e then [HtmlFile] else []);
                 messages := if preview_ok e then [TPreviewCreated] else [];
                 structure_info := Some info;
                 written := Some an |},
              if preview_ok e then console
              else log (SVGToLottieConverter.verbose conv) TPreviewError console)
      | None =>
          Ok (self',
              {| success := false; output_files := []; messages := [TConversionFailed];
                 structure_info := Some info; written := None |},
              console)
      end.

(** The dictionary of the caller after [process_svg] has returned.  Once
    the document is loaded and measured, the method writes the width and
    the height into the dictionary where they are absent; when no
    dictionary is passed, the one that it completes is local to the call. *)
Definition config_after (self : t) (e : env) (animation_config : option animation_config)
  : option SVGToLottieConverter.animation_config :=
  match animation_config with
  | None => None
  | Some config =>
      if negb (path_exists e) then Some config
      else
        let '(p1, loaded) := SVGParser.load_svg (parser self) (file e) in
        if negb loaded then Some config
        else
          match SVGParser.get_svg_size (SVGParser.analyze_structure p1).1 with
          | Ok size =>
              Some {| cfg_n_frames := cfg_n_frames config;
                      cfg_framerate := cfg_framerate config;
                      cfg_width := Some (default size.1 (cfg_width config));
                      cfg_height := Some (default size.2 (cfg_height config));
                      cfg_background_color := cfg_background_color config |}
          | Raise _ => Some config
          end
  end.

(** What [batch_process] prints. *)
Inductive batch_text :=
  | TFound (n : nat)          (* batch_process: n SVG files were found *)
  | TProcessing (i n : nat)   (* batch_process: processing file i of n *)
  | TFile (line : text).      (* a line printed while one file is processed *)

(** The dictionary that [batch_process] returns, without the two directory
    names. *)
Record batch_result := {
  batch_success : bool;
  total_files : nat;
  processed_files : nat;
  failed_files : nat;
  results : list process_result
}.

Definition batch_log (verbose : bool) (message : batch_text) (console : list batch_text)
  : list batch_text :=
  if verbose then console ++ [message] else console.

(** [file.lower().endswith('.svg')] *)
Definition is_svg_name (file_name : string) : bool := endswith ".svg" (lower file_name).

(** One turn of the loop over the SVG files.  The state holds the builder,
    the dictionary [animation_config] that every call of [process_svg] is
    handed, the result so far and the console. *)
Definition batch_step (n : nat)
    (st : t * option animation_config * batch_result * list batch_text)
    (item : nat * (string * env))
  : result (t * option animation_config * batch_result * list batch_text) :=
  let '(self, animation_config, result, console) := st in
  let console := batch_log (verbose self) (TProcessing (item.1 + 1) n) console in
  '(self', file_result, printed) ← process_svg self item.2.2 animation_config [];
  let console := (console ++ (TFile <$> printed))%list in
  let result :=
    if success file_result then
      {| batch_success := batch_success result; total_files := total_files result;
         processed_files := processed_files result + 1;
         failed_files := failed_files result;
         results := (results result ++ [file_result])%list |}
    else
      {| batch_success := false; total_files := total_files result;
         processed_files := processed_files result;
         failed_files := failed_files result + 1;
         results := (results result ++ [file_result])%list |} in
  Ok (self', config_after self item.2.2 animation_config, result, console).

(** [batch_process(input_dir, output_dir, animation_config)].  [walk] is
    what [os.walk(input_dir)] lists, in its order: the name of each file
    with what a call of [process_svg] on that file meets.  The output
    directory can be created. *)
Definition batch_process (self : t) (walk : list (string * env))
    (animation_config : option animation_config) (console : list batch_text)
  : result (t * batch_result * list batch_text) :=
  let svg_files := filter (fun item => is_svg_name item.1 = true) walk in
  let result :=
    {| batch_success := true; total_files := length svg_files; processed_files := 0;
       failed_files := 0; results := [] |} in
  let console := batch_log (verbose self) (TFound (length svg_files)) console in
  '(self', _, result, console) ←
    for_each (batch_step (length svg_files)) (self, animation_config, result, console)
             (enumerate svg_files);
  Ok (self', result, console).

End AnimationBuilder.

(* ===================================================================== *)
(** ** Vocabulary of the properties *)
(* ===================================================================== *)

Import Dom Lottie SVGToLottieConverter.
Import SVGParser(element_data(..), element_groups_t, data_type, data_fill).

(** *** Reading a path value

    The layout is the one the comments of [_parse_svg_path] give: a header
    row (closed state, vertex type, vertex index) followed by one row per
    vertex (position x, y; incoming tangent x, y; outgoing tangent x, y). *)

Record vertex := {
  position : Z * Z;
  in_tangent : Z * Z;
  out_tangent : Z * Z
}.

Definition polyline_vertex (x y : Z) : vertex :=
  {| position := (x, y); in_tangent := (0, 0); out_tangent := (0, 0) |}.

Definition path_closed (value : list (list Z)) : option bool :=
  match value with
  | (closed :: _) :: _ => Some (negb (closed =? 0))
  | _ => None
  end.

Definition vertex_of_row (row : list Z) : option vertex :=
  match row with
  | [x; y; ix; iy; ox; oy] =>
      Some {| position := (x, y); in_tangent := (ix, iy); out_tangent := (ox, oy) |}
  | _ => None
  end.

Definition path_vertices (value : list (list Z)) : option (list vertex) :=
  match value with
  | _ :: rows => mapM vertex_of_row rows
  | [] => None
  end.

(** *** Normalized colours *)

Definition in_unit_interval (x : pyfloat) : bool :=
  match x with
  | Fin q => Qle_bool 0 q && Qle_bool q 1
  | _ => false
  end.

Definition normalized (c : color) : bool :=
  let '(r, g, b, a) := c in
  in_unit_interval r && in_unit_interval g && in_unit_interval b && in_unit_interval a.

Definition opaque_black : color := (F0, F0, F0, F1).
Definition transparent_black : color := (F0, F0, F0, F0).

(** A colour whose red channel, 10^400, is too large for a float. *)
Definition huge_rgb : string :=
  "rgb(1" +:+ String.concat "" (replicate 400 "0") +:+ ",0,0)".

(** *** Hex digits *)

Definition is_hex_digit (c : ascii) : bool := digit_value c <? 16.

(** The channel that two hex digits denote: their value over 255. *)
Definition hex_pair (a b : ascii) : pyfloat :=
  Fin (Qred ((16 * digit_value a + digit_value b) # 255)).

Definition two (a b : ascii) : string := String a (String b EmptyString).

(** Every character, for exhaustive checks. *)
Definition all_ascii : list ascii := map ascii_of_nat (seq 0 256).

#[export] Instance Q_eq_dec : EqDecision Q.
Proof. solve_decision. Defined.

#[export] Instance pyfloat_eq_dec : EqDecision pyfloat.
Proof. solve_decision. Defined.

#[export] Instance result_eq_dec {A} `{EqDecision A} : EqDecision (result A).
Proof. solve_decision. Defined.

(** *** Documents *)

(** A parser instance that has loaded [doc]. *)
Definition loaded (self : SVGParser.t) (doc : node) : SVGParser.t :=
  (SVGParser.load_svg self (Some doc)).1.

(** One run of load and structure analysis. *)
Definition load_and_analyze (self : SVGParser.t) (doc : node) : SVGParser.t :=
  (SVGParser.analyze_structure (loaded self doc)).1.



Definition shape_tags : list string :=
  ["circle"; "rect"; "ellipse"; "polygon"; "polyline"].


Definition drawable_tags : list string :=
  ["g"; "path"; "circle"; "rect"; "ellipse"; "polygon"; "polyline"].

(** A node with no group, path or shape element in it, itself included. *)
Fixpoint inert (n : node) : bool :=
  match n with
  | Element tag _ children => negb (bool_decide (tag ∈ drawable_tags)) && forallb inert children
  | CharData _ => true
  end.

(** A path element with no group, path or shape element inside and a fill
    that resolves. *)
Definition top_level_path (n : node) : bool :=
  match n with
  | Element tag a children =>
      bool_decide (tag = "path")
      && forallb inert children
      && is_ok (_parse_color (str_or (getAttribute a "fill") "none"))
  | CharData _ => false
  end.




(** Number of elements of the whole tree, at any depth, whose tag is among
    [tags]. *)
Fixpoint count_tags (tags : list string) (n : node) : nat :=
  match n with
  | Element tag _ children =>
      ((if bool_decide (tag ∈ tags) then 1 else 0)
       + foldr (fun child acc => count_tags tags child + acc) 0 children)%nat
  | CharData _ => 0%nat
  end.

(** The environment of a run in which the file exists, parses to [doc]
    and every file can be written. *)
Definition fair_env (doc : node) : AnimationBuilder.env :=
  {| AnimationBuilder.path_exists := true; AnimationBuilder.file := Some doc;
     AnimationBuilder.export_ok := true; AnimationBuilder.preview_ok := true |}.


(** Example documents. *)
Definition doc_one_path : node :=
  Element "svg" [] [Element "path" [("d", "M0,0 L1,1")] []].


Definition doc_unit_only : node := Element "svg" [("width", "px")] [].




(** *** The layers in closed form *)

(** The shape group that a stored path yields, if its colour resolves. *)
Definition path_group (e : element_data) : option Group :=
  match e with
  | PathData d fill =>
      match _parse_svg_path d, _parse_color fill with
      | Ok value, Ok c => Some [Path value; Fill c]
      | _, _ => None
      end
  | _ => None
  end.

(** The shape group that a stored element yields when it is handled as a
    shape. *)
Definition shape_group (e : element_data) : option Group :=
  match _parse_color (data_fill e) with
  | Ok c =>
      Some (match e with
            | RectData x y w h _ => [Rect (fadd x (fhalf w), fadd y (fhalf h)) (w, h); Fill c]
            | CircleData cx cy r _ => [Ellipse (cx, cy) (fdouble r, fdouble r); Fill c]
            | _ => [Fill c]
            end)
  | Raise _ => None
  end.

Definition first_stored (self : SVGToLottieConverter.t) (element_id : string)
  : option element_data :=
  match SVGParser.get_element_by_id (parser self) element_id with
  | Some (first :: _) => Some first
  | _ => None
  end.

Definition main_layer (self : SVGToLottieConverter.t) (eg : element_groups_t) : ShapeLayer :=
  {| name := "Main Elements";
     shapes :=
       omap (fun element_id => first_stored self element_id ≫= path_group)
            (SVGParser.paths eg)
       ++ omap (fun element_id => first_stored self element_id ≫= shape_group)
               (SVGParser.shapes eg) |}.

Definition element_group (e : element_data) : option Group :=
  if decide (data_type e = "path") then path_group e
  else if bool_decide (data_type e ∈ ["rect"; "circle"; "polygon"; "polyline"])
  then shape_group e
  else None.

Definition group_layer (self : SVGToLottieConverter.t) (item : nat * string)
  : option ShapeLayer :=
  match SVGParser.get_element_by_id (parser self) item.2 with
  | Some (e :: es) =>
      Some {| name := "Group " +:+ pretty (item.1 + 1)%nat;
              shapes := omap element_group (e :: es) |}
  | _ => None
  end.

(** The converter after it has loaded and analysed [doc]. *)
Definition analyzed (self : SVGToLottieConverter.t) (doc : node) : SVGToLottieConverter.t :=
  {| verbose := verbose self; parser := load_and_analyze (parser self) doc |}.

(** The configuration after the defaults are merged in. *)
Definition background_of (cfg : animation_config) : string :=
  default "#ffffff" (cfg_background_color cfg).
Definition width_of (cfg : animation_config) : pyfloat := default (Fin 800) (cfg_width cfg).
Definition height_of (cfg : animation_config) : pyfloat := default (Fin 600) (cfg_height cfg).

(** Two animations that differ at most in their layers. *)
Definition same_header (a b : Animation) : Prop :=
  n_frames a = n_frames b /\ framerate a = framerate b /\
  width a = width b /\ height a = height b.

(** The animation that [convert_svg_to_lottie] writes, when it writes one. *)
Definition converted (r : result (SVGToLottieConverter.t * option Animation * list text))
  : option Animation :=
  match r with
  | Ok (_, an, _) => an
  | Raise _ => None
  end.

(** *** Colour texts *)

Definition three (a b c : ascii) : string := String a (String b (String c EmptyString)).

(** A hash followed by three, six or eight hex digits. *)
Definition hex_colour (s : string) : bool :=
  match s with
  | String "#" x =>
      bool_decide (String.length x ∈ [3; 6; 8]%nat) && all_chars is_hex_digit x
  | _ => false
  end.

(** A decimal numeral of at most 308 digits: its value is below 10^308. *)
Definition decimal (s : string) : bool :=
  negb (bool_decide (s = "")) && all_chars is_digit s && (String.length s <=? 308)%nat.

(** The channel that a decimal numeral denotes: its value over 255. *)
Definition channel_of (s : string) : pyfloat := Fin (Qred (digits_value 0 s # 255)).

Definition rgb_text (r g b : string) : string :=
  "rgb(" +:+ r +:+ "," +:+ g +:+ "," +:+ b +:+ ")".


(** *** Documents whose elements carry identifiers *)

(** Every element of the tree carries an [id] attribute. *)
Fixpoint all_identified (n : node) : bool :=
  match n with
  | Element _ a children =>
      negb (bool_decide (getAttribute a "id" = "")) && forallb all_identified children
  | CharData _ => true
  end.

(** The [id] attributes of the elements whose tag is among [tags], in
    document order. *)
Fixpoint ids_of (tags : list string) (n : node) : list string :=
  match n with
  | Element tag a children =>
      (if bool_decide (tag ∈ tags) then [getAttribute a "id"] else [])
      ++ flat_map (ids_of tags) children
  | CharData _ => []
  end.

(** The [id] attribute of every element with its tag and the [id] of its
    parent, in document order. *)
Fixpoint entries_of (parent : option string) (n : node)
  : list (string * SVGParser.structure_entry) :=
  match n with
  | Element tag a children =>
      (getAttribute a "id",
       {| SVGParser.entry_type := tag; SVGParser.entry_parent := parent |})
      :: flat_map (entries_of (Some (getAttribute a "id"))) children
  | CharData _ => []
  end.

(** The identifiers that the element groups mention. *)
Definition mentioned (eg : element_groups_t) (element_id : string) : Prop :=
  element_id ∈ SVGParser.groups eg \/ element_id ∈ SVGParser.paths eg \/
  element_id ∈ SVGParser.shapes eg \/
  is_Some (SVGParser.original_elements eg !! element_id).

(** Every mentioned identifier has an entry in the structure map. *)
Definition entries_cover (st : gmap string SVGParser.structure_entry * element_groups_t)
  : Prop :=
  forall element_id, mentioned st.2 element_id -> is_Some (st.1 !! element_id).

(** Every listed path has stored elements. *)
Definition paths_stored (eg : element_groups_t) : Prop :=
  forall element_id, element_id ∈ SVGParser.paths eg ->
    exists e es, SVGParser.original_elements eg !! element_id = Some (e :: es).

(** [self.structure_map[element_id] = entry] *)
Definition record_entry (m : gmap string SVGParser.structure_entry)
    (kv : string * SVGParser.structure_entry) : gmap string SVGParser.structure_entry :=
  <[kv.1 := kv.2]> m.

Definition has_tag (tags : list string) (kv : string * SVGParser.structure_entry) : Prop :=
  SVGParser.entry_type kv.2 ∈ tags.

#[export] Instance has_tag_dec tags kv : Decision (has_tag tags kv).
Proof. unfold has_tag. apply _. Defined.

Definition doc_identified : node :=
  Element "svg" [("id", "root")]
    [Element "g" [("id", "layer")]
       [Element "rect" [("id", "box")] [];
        Element "path" [("id", "curve"); ("d", "M0,0 L1,1")] []];
     CharData " ";
     Element "circle" [("id", "dot")] []].

(** *** Runs of the builder *)

(** The configuration that [process_svg] starts from. *)
Definition configured (cfg : option animation_config) : animation_config :=
  default empty_config cfg.

(** The configuration that [process_svg] hands to the converter: the
    width and the height of the document fill in for absent ones. *)
Definition completed (cfg : animation_config) (size : pyfloat * pyfloat) : animation_config :=
  {| cfg_n_frames := cfg_n_frames cfg; cfg_framerate := cfg_framerate cfg;
     cfg_width := Some (default size.1 (cfg_width cfg));
     cfg_height := Some (default size.2 (cfg_height cfg));
     cfg_background_color := cfg_background_color cfg |}.

(** The size that a document declares, as [get_svg_size] reads it. *)
Definition document_size (doc : node) : result (pyfloat * pyfloat) :=
  SVGParser.get_svg_size (loaded SVGParser.init doc).

(** The structure report of a document, read off the tree. *)
Definition report (doc : node) (size : pyfloat * pyfloat) : AnimationBuilder.structure_info_t :=
  {| AnimationBuilder.is_flat :=
       bool_decide (count_tags ["g"] doc < 3)%nat
       && bool_decide (20 < count_tags ["path"] doc)%nat;
     AnimationBuilder.n_groups := count_tags ["g"] doc;
     AnimationBuilder.n_paths := count_tags ["path"] doc;
     AnimationBuilder.n_shapes := count_tags shape_tags doc;
     AnimationBuilder.dimensions := size |}.

(** The console after the three step lines of [process_svg]. *)
Definition steps (verbose : bool) (console : list text) : list text :=
  log verbose (TStep 3) (log verbose (TStep 2) (log verbose (TStep 1) console)).

(** The one message of a run that does not succeed. *)
Definition failure_notice (e : AnimationBuilder.env) : text :=
  if negb (AnimationBuilder.path_exists e) then TInputNotFound
  else match AnimationBuilder.file e with
       | None => TCannotLoad
       | Some _ => TConversionFailed
       end.

Definition succeeded (r : AnimationBuilder.process_result) : Prop :=
  AnimationBuilder.success r = true.

#[export] Instance succeeded_dec r : Decision (succeeded r).
Proof. unfold succeeded. apply _. Defined.

(** *** Batches *)

(** The files of a listing that [batch_process] handles. *)
Definition svg_files (walk : list (string * AnimationBuilder.env))
  : list (string * AnimationBuilder.env) :=
  filter (fun item => AnimationBuilder.is_svg_name item.1 = true) walk.

(** The first file of a listing that exists and loads. *)
Fixpoint first_loaded (files : list (string * AnimationBuilder.env)) : option node :=
  match files with
  | [] => None
  | item :: rest =>
      if AnimationBuilder.path_exists item.2
      then match AnimationBuilder.file item.2 with
           | Some doc => Some doc
           | None => first_loaded rest
           end
      else first_loaded rest
  end.

(** An environment in which the file does not exist. *)
Definition missing_env : AnimationBuilder.env :=
  {| AnimationBuilder.path_exists := false; AnimationBuilder.file := None;
     AnimationBuilder.export_ok := true; AnimationBuilder.preview_ok := true |}.

Definition doc_sized (w h : string) : node :=
  Element "svg" [("width", w); ("height", h)] [Element "path" [("d", "M0,0 L1,1")] []].

(** A listing of three files: two documents of different sizes around a
    file that is not an SVG file. *)
Definition walk_two_sizes : list (string * AnimationBuilder.env) :=
  [("a.svg", fair_env (doc_sized "100" "50"));
   ("notes.txt", missing_env);
   ("B.SVG", fair_env (doc_sized "640px" "480px"))].

(* ===================================================================== *)
(** * Properties *)
(* ===================================================================== *)

Local Open Scope list_scope.

(** ** Python primitives *)

Lemma all_ascii_complete (c : ascii) : c ∈ all_ascii.
Proof.
  unfold all_ascii. apply list_elem_of_fmap. exists (nat_of_ascii c). split.
  - symmetry. apply ascii_nat_embedding.
  - apply elem_of_seq. pose proof (nat_ascii_bounded c). lia.
Qed.

Lemma forall_ascii2 (P : ascii -> ascii -> bool) :
  forallb (fun a => forallb (P a) all_ascii) all_ascii = true ->
  forall a b, P a b = true.
Proof.
  intros H a b. rewrite forallb_forall in H.
  pose proof (H a (proj1 (list_elem_of_In _ _) (all_ascii_complete a))) as Ha.
  rewrite forallb_forall in Ha.
  apply Ha, list_elem_of_In, all_ascii_complete.
Qed.

(** Two hex digits are read as their value over 255. *)
Lemma hex_channel_pair (a b : ascii) :
  is_hex_digit a = true -> is_hex_digit b = true ->
  hex_channel (two a b) = Ok (hex_pair a b).
Proof.
  intros Ha Hb.
  pose proof (forall_ascii2
    (fun a b => implb (is_hex_digit a && is_hex_digit b)
                      (bool_decide (hex_channel (two a b) = Ok (hex_pair a b))))) as H.
  specialize (H ltac:(vm_compute; reflexivity) a b). cbv beta in H.
  rewrite Ha, Hb in H. simpl in H. apply bool_decide_eq_true in H. exact H.
Qed.

Lemma hex_digit_not_hash (a : ascii) : is_hex_digit a = true -> Ascii.eqb a "#" = false.
Proof.
  intros Ha. destruct (Ascii.eqb_spec a "#") as [->|]; [discriminate Ha|reflexivity].
Qed.

(** The background parser reads six hex digits after the hash. *)
Lemma background_fill_hex6 (a b c d e f : ascii) :
  forallb is_hex_digit [a; b; c; d; e; f] = true ->
  background_fill (String "#" (two a b +:+ two c d +:+ two e f)) =
  Ok (hex_pair a b, hex_pair c d, hex_pair e f, F1).
Proof.
  intros H. simpl in H. rewrite !andb_true_iff in H.
  destruct H as (Ha & Hb & Hc & Hd & He & Hf & _).
  unfold background_fill. simpl. rewrite (hex_digit_not_hash a Ha).
  change (slice 0 2 _) with (two a b). change (slice 2 4 _) with (two c d).
  change (slice 4 6 _) with (two e f).
  rewrite !hex_channel_pair by assumption. reflexivity.
Qed.

(** A digit is no blank, no underscore and no sign. *)
Lemma digit_plain (c : ascii) :
  is_digit c = true ->
  is_space_num c = false /\ Ascii.eqb c underscore = false /\
  Ascii.eqb c "+" = false /\ Ascii.eqb c "-" = false.
Proof.
  intros H.
  destruct c as [[] [] [] [] [] [] [] []]; try discriminate H; repeat split.
Qed.

Lemma drop_while_end_digits (s : string) :
  all_chars is_digit s = true -> drop_while_end is_space_num s = s.
Proof.
  induction s as [|c s IH]; intros H; [reflexivity|].
  simpl in H. apply andb_true_iff in H as [Hc Hs]. simpl. rewrite (IH Hs).
  destruct s; [|reflexivity].
  destruct (digit_plain c Hc) as (-> & _). reflexivity.
Qed.

Lemma remove_underscores_digits (s : string) :
  all_chars is_digit s = true ->
  forall prev, Ascii.eqb prev underscore = false -> remove_underscores prev s = Some s.
Proof.
  induction s as [|c s IH]; intros H prev Hprev; simpl.
  - rewrite Hprev. reflexivity.
  - simpl in H. apply andb_true_iff in H as [Hc Hs].
    destruct (digit_plain c Hc) as (_ & Hu & _).
    rewrite Hu, Hprev. simpl. rewrite (IH Hs c Hu). reflexivity.
Qed.

Lemma span_all (p : ascii -> bool) (s : string) :
  all_chars p s = true -> span p s = (s, EmptyString).
Proof.
  induction s as [|c s IH]; intros H; [reflexivity|].
  simpl in H. apply andb_true_iff in H as [Hc Hs]. simpl.
  rewrite Hc, (IH Hs). reflexivity.
Qed.

Lemma string_app_empty (s : string) : s +:+ "" = s.
Proof.
  induction s as [|c s IH]; [reflexivity|].
  change (String c s +:+ "") with (String c (s +:+ "")). rewrite IH. reflexivity.
Qed.

(** [float] reads a string of decimal digits as the integer it denotes. *)
Lemma py_float_digits (s : string) :
  s <> "" -> all_chars is_digit s = true ->
  py_float s = Ok (round_overflow (inject_Z (digits_value 0 s))).
Proof.
  intros Hne Hs. destruct s as [|c s]; [contradiction|clear Hne].
  pose proof Hs as Hcs. simpl in Hcs. apply andb_true_iff in Hcs as [Hc Hrest].
  destruct (digit_plain c Hc) as (Hspace & Hu & Hplus & Hminus).
  unfold py_float, strip_num.
  replace (drop_while is_space_num (String c s)) with (String c s)
    by (simpl; rewrite Hspace; reflexivity).
  rewrite (drop_while_end_digits _ Hs).
  rewrite (remove_underscores_digits _ Hs) by reflexivity.
  rewrite Hplus, Hminus, (span_all _ _ Hs), string_app_empty.
  unfold parse_exponent, pow10. simpl String.length.
  change (0 - Z.of_nat 0) with 0. simpl (0 <=? 0). cbv iota.
  rewrite Z.pow_0_r, Z.mul_1_r. reflexivity.
Qed.

(** Stripping leaves the digits and dots in front of a unit. *)
Lemma remove_chars_unit (number unit : string) :
  all_chars (fun c => negb (SVGParser.not_numeric c)) number = true ->
  all_chars SVGParser.not_numeric unit = true ->
  remove_chars SVGParser.not_numeric (number +:+ unit) = number.
Proof.
  intros Hn Hu. induction number as [|c s IH].
  - change ("" +:+ unit) with unit.
    induction unit as [|c s IH]; [reflexivity|].
    simpl in Hu. apply andb_true_iff in Hu as [Hc Hs]. simpl. rewrite Hc. auto.
  - change (String c s +:+ unit) with (String c (s +:+ unit)).
    simpl in Hn. apply andb_true_iff in Hn as [Hc Hs].
    apply negb_true_iff in Hc. simpl. rewrite Hc. f_equal. auto.
Qed.

(** ** The path geometry translator *)

(** C10. For every input string [d], [_parse_svg_path d] does not raise and
    returns the fixed placeholder [[[0, 0, 0], [1, 2, 0, 0, 0, 0]]]: the
    output does not depend on the path data. *)
Theorem parse_svg_path_constant :
  forall d : string, _parse_svg_path d = Ok [[0; 0; 0]; [1; 2; 0; 0; 0; 0]].
Proof. intros d. unfold _parse_svg_path. reflexivity. Qed.

(** The claim C1 as stated fails: for ["M0,0 L10,0 L10,10 Z"] the result is
    not a closed path with the three vertices (0,0), (10,0), (10,10). *)
Lemma parse_svg_path_triangle_counterexample :
  ~ (exists value,
       _parse_svg_path "M0,0 L10,0 L10,10 Z" = Ok value /\
       path_closed value = Some true /\
       path_vertices value =
         Some [polyline_vertex 0 0; polyline_vertex 10 0; polyline_vertex 10 10]).
Proof.
  intros (value & Hv & Hc & _).
  unfold _parse_svg_path in Hv. simpl in Hv.
  injection Hv as <-. discriminate Hc.
Qed.

(** C1, amended. For the path data ["M0,0 L10,0 L10,10 Z"] the translator
    returns the placeholder: an open path (closed flag 0) with exactly one
    vertex, at (1,2), whose incoming and outgoing tangent offsets are
    zero. *)
Theorem parse_svg_path_triangle :
  exists value,
    _parse_svg_path "M0,0 L10,0 L10,10 Z" = Ok value /\
    path_closed value = Some false /\
    path_vertices value = Some [polyline_vertex 1 2].
Proof.
  eexists. split; [reflexivity|]. split; reflexivity.
Qed.

(** ** The colour resolver *)

Lemma parse_color_empty_or_none (s : string) :
  s = "" \/ lower s = "none" -> _parse_color s = Ok transparent_black.
Proof.
  intros H. unfold _parse_color.
  destruct H as [-> | ->]; [reflexivity|].
  rewrite (bool_decide_eq_true_2 ("none" = "none") eq_refl).
  rewrite orb_true_r. reflexivity.
Qed.

Lemma parse_color_named (s : string) (c : color) :
  s <> "" -> lower s <> "none" -> color_map !! lower s = Some c ->
  _parse_color s = Ok c.
Proof.
  intros H1 H2 H3. unfold _parse_color.
  rewrite (bool_decide_eq_false_2 _ H1), (bool_decide_eq_false_2 _ H2), H3.
  reflexivity.
Qed.

Lemma parse_color_red_forms :
  _parse_color "#F00" = Ok (F1, F0, F0, F1) /\
  _parse_color "#ff0000" = Ok (F1, F0, F0, F1) /\
  _parse_color "red" = Ok (F1, F0, F0, F1).
Proof. repeat split; vm_compute; reflexivity. Qed.

Lemma parse_color_rgba_half :
  _parse_color "rgba(0,0,0,0.5)" = Ok (F0, F0, F0, Fin (1 # 2)) /\
  _parse_color "rgba(0,0,0)" = Ok opaque_black.
Proof. split; vm_compute; reflexivity. Qed.

Lemma color_map_hash (x : string) : color_map !! String "#" x = None.
Proof.
  unfold color_map. apply not_elem_of_list_to_map_1. simpl.
  rewrite !elem_of_cons, elem_of_nil. intros H.
  repeat (destruct H as [H|H]; [discriminate H|]). exact H.
Qed.

(** Six hex digits after the hash resolve to their channels over 255, with
    alpha 1. *)
Lemma parse_color_hex6 (a b c d e f : ascii) :
  forallb is_hex_digit [a; b; c; d; e; f] = true ->
  _parse_color (String "#" (two a b +:+ two c d +:+ two e f)) =
  Ok (hex_pair a b, hex_pair c d, hex_pair e f, F1).
Proof.
  intros H. simpl in H. rewrite !andb_true_iff in H.
  destruct H as (Ha & Hb & Hc & Hd & He & Hf & _).
  unfold _parse_color.
  rewrite bool_decide_eq_false_2 by discriminate.
  rewrite bool_decide_eq_false_2 by discriminate.
  simpl. rewrite color_map_hash.
  unfold hex_body. simpl. rewrite (hex_digit_not_hash a Ha). simpl.
  change (slice 0 2 _) with (two a b). change (slice 2 4 _) with (two c d).
  change (slice 4 6 _) with (two e f).
  rewrite !hex_channel_pair by assumption. reflexivity.
Qed.

(** What matches no form resolves to opaque black. *)
Lemma parse_color_default (s : string) :
  s <> "" -> lower s <> "none" -> color_map !! lower s = None ->
  startswith "#" s = false -> rgb_match s = None -> rgba_match s = None ->
  _parse_color s = Ok opaque_black.
Proof.
  intros H1 H2 H3 H4 H5 H6. unfold _parse_color, rgb_body, rgba_body.
  rewrite (bool_decide_eq_false_2 _ H1), (bool_decide_eq_false_2 _ H2), H3, H4.
  simpl. rewrite H5. simpl. rewrite H6. reflexivity.
Qed.

(** After a hash, text on which the hex branch returns nothing, or raises
    [ValueError], resolves to opaque black. *)
Lemma parse_color_hex_fallthrough (x : string) :
  except_ValueError_pass (hex_body (String "#" x)) = Ok None ->
  _parse_color (String "#" x) = Ok opaque_black.
Proof.
  intros H. unfold _parse_color.
  rewrite bool_decide_eq_false_2 by discriminate.
  rewrite bool_decide_eq_false_2 by discriminate.
  simpl. rewrite color_map_hash, H.
  destruct (startswith "" x); reflexivity.
Qed.

(** C2. The resolver at ["#-f-f-f"]: the text after the hash is not a hex
    colour, yet [int] reads each pair as a signed number and the result is
    a colour with negative channels instead of opaque black. *)
Theorem parse_color_signed_hex :
  _parse_color "#-f-f-f" = Ok (Fin (-1 # 17), Fin (-1 # 17), Fin (-1 # 17), F1) /\
  _parse_color "#-f-f-f" <> Ok opaque_black.
Proof. split; [vm_compute; reflexivity|]. vm_compute. discriminate. Qed.

(** C6. The resolver at ["rgb(300,0,0)"]: the red channel is 300/255, which
    lies outside the unit interval. *)
Theorem parse_color_channel_above_one :
  _parse_color "rgb(300,0,0)" = Ok (Fin (20 # 17), F0, F0, F1) /\
  normalized (Fin (20 # 17), F0, F0, F1) = false.
Proof. split; vm_compute; reflexivity. Qed.

(** A channel too large for a float makes the resolver raise. *)
Lemma parse_color_overflow : _parse_color huge_rgb = Raise OverflowError.
Proof. vm_compute. reflexivity. Qed.

(** ** The scene loader *)

(** Induction on a document: the children of an element satisfy the
    property. *)
Lemma node_children_ind (P : node -> Prop) :
  (forall data, P (CharData data)) ->
  (forall tag a children, Forall P children -> P (Element tag a children)) ->
  forall n, P n.
Proof.
  intros Hdata Helement. fix IH 1. intros [tag a children | data]; [|apply Hdata].
  apply Helement. induction children as [|c cs IHcs]; constructor; [apply IH | exact IHcs].
Qed.

(** The structure map only grows. *)
Lemma process_node_keeps (n : node) :
  forall parent_id st k,
    is_Some (st.1 !! k) -> is_Some ((SVGParser.process_node n parent_id st).1 !! k).
Proof.
  induction n as [data | tag a children IH] using node_children_ind;
    intros parent_id st k Hk; simpl; [exact Hk|].
  set (element_id := SVGParser.element_id_of a st.1).
  set (start := (_, _)).
  assert (Hstart : is_Some (start.1 !! k))
    by (unfold start; simpl; rewrite lookup_insert_is_Some';
        right; exact Hk).
  clearbody start. revert start Hstart.
  induction IH as [|c cs Hc _ IHcs]; intros start Hstart; simpl; [exact Hstart|].
  apply IHcs, Hc, Hstart.
Qed.

Lemma foldl_process_node_keeps (children : list node) :
  forall parent_id st k,
    is_Some (st.1 !! k) ->
    is_Some ((foldl (fun acc child => SVGParser.process_node child parent_id acc)
                    st children).1 !! k).
Proof.
  induction children as [|c cs IH]; intros parent_id st k Hk; simpl; [exact Hk|].
  apply IH, process_node_keeps, Hk.
Qed.

(** The identifier of the root is in the structure map after a run. *)
Lemma root_in_structure_map (self : SVGParser.t) tag a children :
  is_Some (SVGParser.structure_map (load_and_analyze self (Element tag a children))
           !! SVGParser.element_id_of a (SVGParser.structure_map self)).
Proof.
  unfold load_and_analyze, loaded, SVGParser.analyze_structure,
    SVGParser._analyze_with_minidom. simpl.
  match goal with
  | |- context [foldl ?f ?start children] =>
      pose proof (foldl_process_node_keeps children
                    (Some (SVGParser.element_id_of a (SVGParser.structure_map self)))
                    start (SVGParser.element_id_of a (SVGParser.structure_map self)))
        as Hkeep;
      destruct (foldl f start children) as [m eg]
  end.
  simpl in *. apply Hkeep. rewrite lookup_insert_eq. eauto.
Qed.

(** X26. On a fresh instance, a root without an [id] attribute is named
    [element_0] by the first run of load and analysis; after that run the
    name that the instance would give it is a different one, whatever the
    document. *)
Lemma root_identifier_changes_on_reuse tag a children :
  getAttribute a "id" = "" ->
  SVGParser.element_id_of a (SVGParser.structure_map SVGParser.init) = "element_0" /\
  SVGParser.element_id_of a
    (SVGParser.structure_map (load_and_analyze SVGParser.init (Element tag a children)))
  <> "element_0".
Proof.
  intros Hid. unfold SVGParser.element_id_of. rewrite Hid. simpl str_or.
  split; [reflexivity|].
  pose proof (root_in_structure_map SVGParser.init tag a children) as Hroot.
  apply map_size_ne_0_lookup_2 in Hroot.
  intros Heq. apply Hroot.
  change "element_0" with ("element_" +:+ pretty 0%nat) in Heq.
  apply (inj (String.app "element_")) in Heq.
  apply (inj pretty) in Heq. exact Heq.
Qed.

Lemma root_identifier_changes_on_reuse_witness :
  getAttribute [("width", "10")] "id" = "" /\
  SVGParser.element_id_of [("width", "10")]
    (SVGParser.structure_map
       (load_and_analyze SVGParser.init (Element "svg" [("width", "10")] [CharData " "])))
  <> "element_0".
Proof.
  split; [reflexivity|].
  exact (proj2 (root_identifier_changes_on_reuse "svg" [("width", "10")] [CharData " "]
                  eq_refl)).
Defined.

(** C5. One parser instance, the same document loaded and analysed twice:
    the first run names the path [element_1], the second [element_3],
    because the structure map still holds the entries of the first run. *)
Theorem synthetic_ids_drift_on_reuse :
  SVGParser.paths (SVGParser.element_groups
    (load_and_analyze SVGParser.init doc_one_path)) = ["element_1"] /\
  SVGParser.paths (SVGParser.element_groups
    (load_and_analyze (load_and_analyze SVGParser.init doc_one_path) doc_one_path))
  = ["element_3"].
Proof. split; vm_compute; reflexivity. Qed.

(** The claim C8 as stated fails: of the width ["px"] nothing numeric
    remains after stripping, and the size is reported as the default
    instead of a failure. *)
Lemma get_svg_size_unit_only_counterexample :
  remove_chars SVGParser.not_numeric "px" = "" /\
  SVGParser.get_svg_size (loaded SVGParser.init doc_unit_only) = Ok (Fin 800, Fin 600) /\
  ~ (exists e, SVGParser.get_svg_size (loaded SVGParser.init doc_unit_only) = Raise e).
Proof.
  split; [reflexivity|]. split; [vm_compute; reflexivity|].
  intros [e He]. vm_compute in He. discriminate He.
Qed.

Example get_svg_size_declared :
  SVGParser.get_svg_size
    (loaded SVGParser.init (Element "svg" [("width", "640"); ("height", "480.5")] []))
  = Ok (Fin 640, Fin (961 # 2)).
Proof. vm_compute. reflexivity. Qed.

Example get_svg_size_units :
  SVGParser.get_svg_size
    (loaded SVGParser.init (Element "svg" [("width", "800px"); ("height", "20em")] []))
  = Ok (Fin 800, Fin 20).
Proof. vm_compute. reflexivity. Qed.

Example get_svg_size_absent :
  SVGParser.get_svg_size (loaded SVGParser.init (Element "svg" [("height", "20")] []))
  = Ok (Fin 800, Fin 20).
Proof. vm_compute. reflexivity. Qed.

Example get_svg_size_two_dots :
  SVGParser.get_svg_size
    (loaded SVGParser.init (Element "svg" [("width", "100"); ("height", "1.2.3")] []))
  = Ok (Fin 800, Fin 600).
Proof. vm_compute. reflexivity. Qed.

(** X27. Declared sizes: a width and a height written as decimal digits,
    with or without a unit behind them (any characters other than digits
    and dots), are returned as the numbers that the digits denote. *)
Lemma get_svg_size_declared_with_units (self : SVGParser.t) tag a children
    (w wunit h hunit : string) :
  getAttribute a "width" = w +:+ wunit -> getAttribute a "height" = h +:+ hunit ->
  w <> "" -> h <> "" ->
  all_chars is_digit w = true -> all_chars is_digit h = true ->
  all_chars SVGParser.not_numeric wunit = true ->
  all_chars SVGParser.not_numeric hunit = true ->
  SVGParser.get_svg_size (loaded self (Element tag a children)) =
  Ok (round_overflow (inject_Z (digits_value 0 w)),
      round_overflow (inject_Z (digits_value 0 h))).
Proof.
  intros Hw Hh Hwne Hhne Hwd Hhd Hwu Hhu.
  assert (Hnumeric : forall s, all_chars is_digit s = true ->
            all_chars (fun c => negb (SVGParser.not_numeric c)) s = true).
  { induction s as [|c s IH]; [reflexivity|]. simpl. intros H.
    apply andb_true_iff in H as [Hc Hs]. apply andb_true_iff. split; [|exact (IH Hs)].
    unfold SVGParser.not_numeric. rewrite Hc. reflexivity. }
  unfold SVGParser.get_svg_size, loaded. simpl. rewrite Hw, Hh.
  replace (str_or (w +:+ wunit) "800") with (w +:+ wunit)
    by (destruct w; [contradiction|reflexivity]).
  replace (str_or (h +:+ hunit) "600") with (h +:+ hunit)
    by (destruct h; [contradiction|reflexivity]).
  rewrite !remove_chars_unit by auto.
  rewrite !py_float_digits by assumption. reflexivity.
Qed.

Lemma get_svg_size_declared_with_units_witness :
  SVGParser.get_svg_size
    (loaded SVGParser.init (Element "svg" [("width", "800px"); ("height", "600")] []))
  = Ok (round_overflow (inject_Z (digits_value 0 "800")),
        round_overflow (inject_Z (digits_value 0 "600"))) /\
  round_overflow (inject_Z (digits_value 0 "800")) = Fin 800.
Proof.
  split; [|reflexivity].
  apply (get_svg_size_declared_with_units SVGParser.init "svg"
           [("width", "800px"); ("height", "600")] [] "800" "px" "600" "");
    first [reflexivity | discriminate].
Defined.

(** C8, amended. Size extraction never fails.  Each attribute defaults to
    800 (width) or 600 (height) when absent, loses every character other
    than a digit or a dot, and is parsed; the parsed pair is returned when
    both parse, and the default 800 x 600 is returned for both dimensions
    when one of them does not (as when nothing numeric remains). *)
Theorem get_svg_size_never_fails :
  (forall self : SVGParser.t, exists size, SVGParser.get_svg_size self = Ok size) /\
  (forall (self : SVGParser.t) tag a children,
     SVGParser.get_svg_size (loaded self (Element tag a children)) =
     Ok match
          py_float (remove_chars SVGParser.not_numeric (str_or (getAttribute a "width") "800")),
          py_float (remove_chars SVGParser.not_numeric (str_or (getAttribute a "height") "600"))
        with
        | Ok w, Ok h => (w, h)
        | _, _ => (Fin 800, Fin 600)
        end).
Proof.
  split.
  - intros self. unfold SVGParser.get_svg_size.
    destruct (SVGParser.svg_doc self) as [[tag a children | data] |]; simpl; eauto.
    destruct (py_float (remove_chars _ (str_or (getAttribute a "width") _)));
      simpl; eauto.
    destruct (py_float (remove_chars _ (str_or (getAttribute a "height") _)));
      simpl; eauto.
  - intros self tag a children. unfold SVGParser.get_svg_size, loaded. simpl.
    destruct (py_float (remove_chars _ (str_or (getAttribute a "width") _)));
      simpl; [|reflexivity].
    destruct (py_float (remove_chars _ (str_or (getAttribute a "height") _)));
      reflexivity.
Qed.

(** ** The animation assembler *)

Section Assembly.

Variable self : SVGToLottieConverter.t.

Lemma add_path_layer (e : element_data) (st : ShapeLayer * list text) :
  (_add_path_to_layer (verbose self) e st).1 =
  {| name := name st.1; shapes := shapes st.1 ++ option_list (path_group e) |}.
Proof.
  destruct st as [[nm gs] console], e as [| |d fill|]; simpl;
    rewrite ?app_nil_r; try reflexivity.
  destruct (_parse_color fill); simpl; rewrite ?app_nil_r; reflexivity.
Qed.

Lemma add_shape_layer (e : element_data) (st : ShapeLayer * list text) :
  (_add_shape_to_layer (verbose self) e st).1 =
  {| name := name st.1; shapes := shapes st.1 ++ option_list (shape_group e) |}.
Proof.
  destruct st as [[nm gs] console]. unfold _add_shape_to_layer, shape_group.
  destruct (_parse_color (data_fill e)); simpl;
    [destruct e; reflexivity | rewrite app_nil_r; reflexivity].
Qed.

Lemma add_group_element_layer (e : element_data) (st : ShapeLayer * list text) :
  (add_group_element (verbose self) st e).1 =
  {| name := name st.1; shapes := shapes st.1 ++ option_list (element_group e) |}.
Proof.
  unfold add_group_element, element_group.
  destruct (decide _); [apply add_path_layer|].
  destruct (bool_decide _); [apply add_shape_layer|].
  destruct st as [[nm gs] console]. simpl. rewrite app_nil_r. reflexivity.
Qed.

(** A loop that appends at most one group per turn builds the list of the
    groups that its turns yield. *)
Lemma foldl_layer {A} (step : ShapeLayer * list text -> A -> ShapeLayer * list text)
    (yield : A -> option Group) :
  (forall st x, (step st x).1 =
     {| name := name st.1; shapes := shapes st.1 ++ option_list (yield x) |}) ->
  forall xs st,
    (foldl step st xs).1 = {| name := name st.1; shapes := shapes st.1 ++ omap yield xs |}.
Proof.
  intros Hstep xs. induction xs as [|x xs IH]; intros st; simpl.
  - rewrite app_nil_r. destruct st as [[nm gs] c]. reflexivity.
  - rewrite IH, Hstep. simpl. f_equal.
    destruct (yield x); simpl; rewrite <- ?app_assoc; reflexivity.
Qed.

Lemma add_by_id_layer
    (add : element_data -> ShapeLayer * list text -> ShapeLayer * list text)
    (yield : element_data -> option Group) :
  (forall e st, (add e st).1 =
     {| name := name st.1; shapes := shapes st.1 ++ option_list (yield e) |}) ->
  forall st element_id,
    (add_by_id add self st element_id).1 =
    {| name := name st.1;
       shapes := shapes st.1 ++ option_list (first_stored self element_id ≫= yield) |}.
Proof.
  intros Hadd st element_id. unfold add_by_id, first_stored.
  destruct (SVGParser.get_element_by_id _ _) as [[|e es]|]; simpl;
    rewrite ?app_nil_r; try (destruct st as [[nm gs] c]; reflexivity).
  apply Hadd.
Qed.

Lemma add_group_layer_layers (st : Animation * list text) (item : nat * string) :
  layers (add_group_layer self st item).1 =
  layers st.1 ++ option_list (group_layer self item).
Proof.
  unfold add_group_layer, group_layer.
  destruct (SVGParser.get_element_by_id _ _) as [[|e es]|];
    rewrite ?app_nil_r; try reflexivity.
  destruct (foldl _ _ _) as [layer console] eqn:Hfold. simpl. do 2 f_equal.
  change layer with (layer, console).1. rewrite <- Hfold.
  rewrite (foldl_layer _ element_group) by (intros; apply add_group_element_layer).
  reflexivity.
Qed.

Lemma foldl_group_layers (items : list (nat * string)) :
  forall st : Animation * list text,
    layers (foldl (add_group_layer self) st items).1 =
    layers st.1 ++ omap (group_layer self) items.
Proof.
  induction items as [|item items IH]; intros st; simpl.
  - rewrite app_nil_r. reflexivity.
  - rewrite IH, add_group_layer_layers.
    destruct (group_layer self item); simpl; rewrite <- ?app_assoc; reflexivity.
Qed.

(** The layers that [_process_element_groups] appends, in closed form. *)
Lemma process_element_groups_layers (an : Animation) (eg : element_groups_t)
    (console : list text) :
  layers (_process_element_groups self an eg console).1 =
  layers an ++ main_layer self eg :: omap (group_layer self) (enumerate (SVGParser.groups eg)).
Proof.
  unfold _process_element_groups. rewrite foldl_group_layers. simpl.
  rewrite <- app_assoc. do 2 f_equal.
  rewrite (foldl_layer _ (fun element_id => first_stored self element_id ≫= shape_group))
    by (intros; apply add_by_id_layer; intros; apply add_shape_layer).
  rewrite (foldl_layer _ (fun element_id => first_stored self element_id ≫= path_group))
    by (intros; apply add_by_id_layer; intros; apply add_path_layer).
  reflexivity.
Qed.

Lemma add_group_layer_header (st : Animation * list text) (item : nat * string) :
  same_header (add_group_layer self st item).1 st.1.
Proof.
  unfold add_group_layer.
  destruct (SVGParser.get_element_by_id _ _) as [[|e es]|]; try (repeat split; fail).
  destruct (foldl _ _ _). repeat split.
Qed.

Lemma foldl_group_header (items : list (nat * string)) :
  forall st : Animation * list text,
    same_header (foldl (add_group_layer self) st items).1 st.1.
Proof.
  induction items as [|item items IH]; intros st; simpl.
  - repeat split.
  - destruct (IH (add_group_layer self st item)) as (H1 & H2 & H3 & H4).
    destruct (add_group_layer_header st item) as (G1 & G2 & G3 & G4).
    repeat split; congruence.
Qed.

Lemma process_element_groups_header (an : Animation) (eg : element_groups_t)
    (console : list text) :
  same_header (_process_element_groups self an eg console).1 an.
Proof.
  unfold _process_element_groups.
  destruct (foldl_group_header (enumerate (SVGParser.groups eg))
    (add_layer an
       (foldl (add_by_id (_add_shape_to_layer (verbose self)) self)
          (foldl (add_by_id (_add_path_to_layer (verbose self)) self)
             ({| name := "Main Elements"; shapes := [] |}, console) (SVGParser.paths eg))
          (SVGParser.shapes eg)).1,
     (foldl (add_by_id (_add_shape_to_layer (verbose self)) self)
          (foldl (add_by_id (_add_path_to_layer (verbose self)) self)
             ({| name := "Main Elements"; shapes := [] |}, console) (SVGParser.paths eg))
          (SVGParser.shapes eg)).2)) as (H1 & H2 & H3 & H4).
  repeat split; assumption.
Qed.

End Assembly.

(** The animation that a conversion writes, in closed form: the
    background layer, the main layer, the group layers. *)
Lemma convert_written (self : SVGToLottieConverter.t) (doc : node)
    (cfg : animation_config) (console : list text) :
  converted (convert_svg_to_lottie self (Some doc) true cfg console) =
  match background_layer (width_of cfg) (height_of cfg) (background_of cfg) with
  | Ok background =>
      let self' := analyzed self doc in
      let eg := SVGParser.element_groups (parser self') in
      Some {| n_frames := default 90 (cfg_n_frames cfg);
              framerate := default 30 (cfg_framerate cfg);
              width := width_of cfg; height := height_of cfg;
              layers := background :: main_layer self' eg
                        :: omap (group_layer self') (enumerate (SVGParser.groups eg)) |}
  | Raise _ => None
  end.
Proof.
  unfold convert_svg_to_lottie, width_of, height_of, background_of. simpl.
  destruct (background_layer _ _ _) as [background|e]; simpl; [|reflexivity].
  destruct (_process_element_groups _ _ _ _) as [an console'] eqn:Hp. simpl.
  match type of Hp with
  | _process_element_groups ?c ?a ?g ?k = _ =>
      pose proof (process_element_groups_layers c a g k) as Hl;
      pose proof (process_element_groups_header c a g k) as Hh
  end.
  rewrite Hp in Hl, Hh. simpl in Hl, Hh.
  destruct an as [nf fr w h ls]. destruct Hh as (H1 & H2 & H3 & H4).
  simpl in *. subst. reflexivity.
Qed.

(** ** The structure classifier *)

Section Counting.

(** One of the three identifier lists, and the tags that feed it. *)
Variable bucket : element_groups_t -> list string.
Variable tags : list string.

Hypothesis bucket_classify : forall element_id tag eg,
  length (bucket (SVGParser.classify element_id tag eg)) =
  (length (bucket eg) + if bool_decide (tag ∈ tags) then 1 else 0)%nat.

Hypothesis bucket_save : forall element_id tag a children eg,
  bucket (SVGParser._save_node_content element_id tag a children eg) = bucket eg.

Lemma foldl_process_node_count (children : list node) :
  Forall (fun c => forall parent_id st,
            length (bucket (SVGParser.process_node c parent_id st).2) =
            (length (bucket st.2) + count_tags tags c)%nat) children ->
  forall parent_id st,
    length (bucket (foldl (fun acc child => SVGParser.process_node child parent_id acc)
                          st children).2) =
    (length (bucket st.2)
     + foldr (fun child acc => count_tags tags child + acc) 0 children)%nat.
Proof.
  induction 1 as [|c cs Hc _ IH]; intros parent_id st; simpl; [lia|].
  rewrite IH, Hc. lia.
Qed.

Lemma process_node_count (n : node) :
  forall parent_id st,
    length (bucket (SVGParser.process_node n parent_id st).2) =
    (length (bucket st.2) + count_tags tags n)%nat.
Proof.
  induction n as [data | tag a children IH] using node_children_ind;
    intros parent_id st; simpl; [lia|].
  rewrite (foldl_process_node_count children IH). simpl.
  rewrite bucket_classify, bucket_save. lia.
Qed.

End Counting.

Lemma classify_paths element_id tag eg :
  length (SVGParser.paths (SVGParser.classify element_id tag eg)) =
  (length (SVGParser.paths eg) + if bool_decide (tag ∈ ["path"]) then 1 else 0)%nat.
Proof.
  unfold SVGParser.classify.
  destruct (decide (tag = "g")) as [->|Hg]; [simpl; lia|].
  destruct (decide (tag = "path")) as [->|Hp]; [simpl; rewrite length_app; reflexivity|].
  rewrite bool_decide_eq_false_2 by (rewrite list_elem_of_singleton; exact Hp).
  destruct (SVGParser.is_shape_tag tag); simpl; lia.
Qed.

Lemma classify_groups element_id tag eg :
  length (SVGParser.groups (SVGParser.classify element_id tag eg)) =
  (length (SVGParser.groups eg) + if bool_decide (tag ∈ ["g"]) then 1 else 0)%nat.
Proof.
  unfold SVGParser.classify.
  destruct (decide (tag = "g")) as [->|Hg]; [simpl; rewrite length_app; reflexivity|].
  rewrite bool_decide_eq_false_2 by (rewrite list_elem_of_singleton; exact Hg).
  destruct (decide (tag = "path")); [simpl; lia|].
  destruct (SVGParser.is_shape_tag tag); simpl; lia.
Qed.

Lemma classify_shapes element_id tag eg :
  length (SVGParser.shapes (SVGParser.classify element_id tag eg)) =
  (length (SVGParser.shapes eg) + if bool_decide (tag ∈ shape_tags) then 1 else 0)%nat.
Proof.
  unfold SVGParser.classify.
  destruct (decide (tag = "g")) as [->|Hg]; [simpl; lia|].
  destruct (decide (tag = "path")) as [->|Hp]; [simpl; lia|].
  unfold SVGParser.is_shape_tag, shape_tags.
  destruct (bool_decide _); simpl; rewrite ?length_app; simpl; lia.
Qed.

Lemma save_node_content_lists element_id tag a children eg :
  SVGParser.groups (SVGParser._save_node_content element_id tag a children eg)
    = SVGParser.groups eg /\
  SVGParser.paths (SVGParser._save_node_content element_id tag a children eg)
    = SVGParser.paths eg /\
  SVGParser.shapes (SVGParser._save_node_content element_id tag a children eg)
    = SVGParser.shapes eg.
Proof.
  unfold SVGParser._save_node_content.
  destruct (SVGParser.node_content tag a children) as [[|e es]|]; repeat split.
Qed.

(** The classifier lists one identifier for every group, path and shape
    element of the tree, whatever its depth. *)
Lemma analyze_counts (self : SVGParser.t) (doc : node) :
  length (SVGParser.groups (SVGParser.element_groups (load_and_analyze self doc)))
    = count_tags ["g"] doc /\
  length (SVGParser.paths (SVGParser.element_groups (load_and_analyze self doc)))
    = count_tags ["path"] doc /\
  length (SVGParser.shapes (SVGParser.element_groups (load_and_analyze self doc)))
    = count_tags shape_tags doc.
Proof.
  unfold load_and_analyze, loaded, SVGParser.analyze_structure,
    SVGParser._analyze_with_minidom. simpl.
  destruct (SVGParser.process_node doc None _) as [m eg] eqn:Hrun. simpl.
  change eg with (m, eg).2. rewrite <- Hrun.
  repeat split.
  - rewrite (process_node_count SVGParser.groups ["g"]); [reflexivity| |].
    + apply classify_groups.
    + intros. apply save_node_content_lists.
  - rewrite (process_node_count SVGParser.paths ["path"]); [reflexivity| |].
    + apply classify_paths.
    + intros. apply save_node_content_lists.
  - rewrite (process_node_count SVGParser.shapes shape_tags); [reflexivity| |].
    + apply classify_shapes.
    + intros. apply save_node_content_lists.
Qed.

(** ** The layers of the assembled animation *)






(** ** Failing primitives *)


Lemma add_shape_failure (verbose : bool) (data : element_data) (e : exn)
    (st : ShapeLayer * list text) :
  _parse_color (data_fill data) = Raise e ->
  _add_shape_to_layer verbose data st = (st.1, log verbose (TShapeError e) st.2).
Proof. intros H. unfold _add_shape_to_layer. rewrite H. reflexivity. Qed.





(** ** Documents of top-level paths *)





Lemma top_level_path_not_inert (c : node) : top_level_path c = true -> inert c = false.
Proof.
  destruct c as [tag a ch | data]; [|discriminate]. simpl. intros Hc.
  apply andb_true_iff in Hc as [Hc _]. apply andb_true_iff in Hc as [Htag _].
  apply bool_decide_eq_true in Htag. subst tag. reflexivity.
Qed.








(* ===================================================================== *)
(** * Further properties of the code *)
(* ===================================================================== *)

(** ** Colour forms *)


Lemma color_map_none : color_map !! "none" = Some transparent_black.
Proof. vm_compute. reflexivity. Qed.

(** What [drop_prefix] removes is a prefix. *)
Lemma drop_prefix_startswith (p q s : string) :
  is_Some (drop_prefix (p +:+ q) s) -> startswith p s = true.
Proof.
  unfold startswith. revert s. induction p as [|a p IH]; intros s H.
  - destruct s; reflexivity.
  - change (String a p +:+ q) with (String a (p +:+ q)) in H.
    destruct s as [|b s]; [destruct H as [x H]; discriminate H|].
    cbn [drop_prefix String.prefix] in *.
    destruct (Ascii.eqb_spec a b) as [->|Hne]; [|destruct H as [x H]; discriminate H].
    destruct (ascii_dec b b) as [_|Hbb]; [apply IH, H|contradiction].
Qed.

Lemma not_rgb_prefix (s : string) :
  startswith "rgb" s = false -> rgb_match s = None /\ rgba_match s = None.
Proof.
  intros H. unfold rgb_match, rgba_match.
  destruct (drop_prefix "rgb(" s) eqn:H1.
  { rewrite (drop_prefix_startswith "rgb" "(" s) in H by eauto. discriminate H. }
  destruct (drop_prefix "rgba(" s) eqn:H2.
  { rewrite (drop_prefix_startswith "rgb" "a(" s) in H by eauto. discriminate H. }
  split; reflexivity.
Qed.

(** X1. A colour text that is not empty and starts neither with a hash
    nor with [rgb] is a name: it is looked up in the colour table without
    regard to letter case, and a name that the table does not hold
    resolves to opaque black. *)
Theorem parse_color_names (s : string) :
  s <> "" -> startswith "#" s = false -> startswith "rgb" s = false ->
  _parse_color s = Ok (default opaque_black (color_map !! lower s)).
Proof.
  intros Hne Hhash Hrgb.
  destruct (color_map !! lower s) as [c|] eqn:Hmap; simpl.
  - destruct (decide (lower s = "none")) as [Hnone|Hnone].
    + rewrite parse_color_empty_or_none by auto.
      rewrite Hnone, color_map_none in Hmap. congruence.
    + apply parse_color_named; assumption.
  - destruct (not_rgb_prefix s Hrgb) as [H1 H2].
    apply parse_color_default; try assumption.
    intros Hnone. rewrite Hnone, color_map_none in Hmap. discriminate Hmap.
Qed.

Lemma parse_color_names_witness :
  _parse_color "ReD" = Ok (default opaque_black (color_map !! lower "ReD")) /\
  color_map !! lower "ReD" = Some (F1, F0, F0, F1) /\
  _parse_color "Orange" = Ok (default opaque_black (color_map !! lower "Orange")) /\
  color_map !! lower "Orange" = None.
Proof.
  split; [apply (parse_color_names "ReD"); [discriminate|reflexivity|reflexivity]|].
  split; [vm_compute; reflexivity|].
  split; [apply (parse_color_names "Orange"); [discriminate|reflexivity|reflexivity]|].
  vm_compute. reflexivity.
Defined.

Lemma parse_color_hex3 (a b c : ascii) :
  forallb is_hex_digit [a; b; c] = true ->
  _parse_color (String "#" (three a b c)) = Ok (hex_pair a a, hex_pair b b, hex_pair c c, F1).
Proof.
  intros H. simpl in H. rewrite !andb_true_iff in H.
  destruct H as (Ha & Hb & Hc & _).
  unfold _parse_color.
  rewrite bool_decide_eq_false_2 by discriminate.
  rewrite bool_decide_eq_false_2 by discriminate.
  simpl. rewrite color_map_hash.
  unfold hex_body. simpl. rewrite (hex_digit_not_hash a Ha). simpl.
  change (twice_at 0 _) with (two a a). change (twice_at 1 _) with (two b b).
  change (twice_at 2 _) with (two c c).
  rewrite !hex_channel_pair by assumption. reflexivity.
Qed.

Lemma parse_color_hex8 (a b c d e f g h : ascii) :
  forallb is_hex_digit [a; b; c; d; e; f; g; h] = true ->
  _parse_color (String "#" (two a b +:+ two c d +:+ two e f +:+ two g h)) =
  Ok (hex_pair a b, hex_pair c d, hex_pair e f, hex_pair g h).
Proof.
  intros H. simpl in H. rewrite !andb_true_iff in H.
  destruct H as (Ha & Hb & Hc & Hd & He & Hf & Hg & Hh & _).
  unfold _parse_color.
  rewrite bool_decide_eq_false_2 by discriminate.
  rewrite bool_decide_eq_false_2 by discriminate.
  simpl. rewrite color_map_hash.
  unfold hex_body. simpl. rewrite (hex_digit_not_hash a Ha). simpl.
  change (slice 0 2 _) with (two a b). change (slice 2 4 _) with (two c d).
  change (slice 4 6 _) with (two e f). change (slice 6 8 _) with (two g h).
  rewrite !hex_channel_pair by assumption. reflexivity.
Qed.

(** X2. Hex colours.  For hex digits a..h: the three-digit form [#abc]
    resolves to the channels aa, bb, cc over 255 with alpha 1, the same
    colour as [#aabbcc]; the six-digit form resolves to the three pairs
    over 255 with alpha 1; the eight-digit form takes its alpha from the
    fourth pair. *)
Theorem parse_color_hex_forms (a b c d e f g h : ascii) :
  forallb is_hex_digit [a; b; c; d; e; f; g; h] = true ->
  _parse_color (String "#" (three a b c))
    = Ok (hex_pair a a, hex_pair b b, hex_pair c c, F1) /\
  _parse_color (String "#" (three a b c))
    = _parse_color (String "#" (two a a +:+ two b b +:+ two c c)) /\
  _parse_color (String "#" (two a b +:+ two c d +:+ two e f))
    = Ok (hex_pair a b, hex_pair c d, hex_pair e f, F1) /\
  _parse_color (String "#" (two a b +:+ two c d +:+ two e f +:+ two g h))
    = Ok (hex_pair a b, hex_pair c d, hex_pair e f, hex_pair g h).
Proof.
  intros H. pose proof H as H'. simpl in H'. rewrite !andb_true_iff in H'.
  destruct H' as (Ha & Hb & Hc & Hd & He & Hf & Hg & Hh & _).
  assert (H3 : forallb is_hex_digit [a; b; c] = true)
    by (simpl; rewrite Ha, Hb, Hc; reflexivity).
  split; [apply parse_color_hex3, H3|].
  split.
  { rewrite parse_color_hex3 by exact H3. symmetry. apply parse_color_hex6.
    simpl. rewrite Ha, Hb, Hc. reflexivity. }
  split; [|apply parse_color_hex8, H].
  apply parse_color_hex6. simpl. rewrite Ha, Hb, Hc, Hd, He, Hf. reflexivity.
Qed.

Lemma parse_color_hex_forms_witness :
  forallb is_hex_digit ["1"; "a"; "F"; "0"; "c"; "9"; "8"; "0"]%char = true /\
  _parse_color "#1aF" = _parse_color "#11aaFF" /\
  _parse_color "#1aF0c980"
    = Ok (hex_pair "1" "a", hex_pair "F" "0", hex_pair "c" "9", hex_pair "8" "0").
Proof.
  assert (H : forallb is_hex_digit ["1"; "a"; "F"; "0"; "c"; "9"; "8"; "0"]%char = true)
    by reflexivity.
  split; [exact H|].
  destruct (parse_color_hex_forms "1" "a" "F" "0" "c" "9" "8" "0" H) as (_ & H2 & _ & H4).
  split; [exact H2 | exact H4].
Defined.

Lemma hex_pair_unit (a b : ascii) :
  is_hex_digit a = true -> is_hex_digit b = true -> in_unit_interval (hex_pair a b) = true.
Proof.
  intros Ha Hb.
  pose proof (forall_ascii2
    (fun a b => implb (is_hex_digit a && is_hex_digit b)
                      (in_unit_interval (hex_pair a b)))) as H.
  specialize (H ltac:(vm_compute; reflexivity) a b). cbv beta in H.
  rewrite Ha, Hb in H. exact H.
Qed.

(** X3. A hash followed by three, six or eight hex digits always resolves,
    and to a colour whose four components lie in the unit interval. *)
Theorem parse_color_hex_normalized (s : string) :
  hex_colour s = true -> exists c, _parse_color s = Ok c /\ normalized c = true.
Proof.
  destruct s as [|hash x]; [discriminate|].
  unfold hex_colour.
  destruct (Ascii.eqb_spec hash "#") as [->|Hne].
  2:{ destruct hash as [[] [] [] [] [] [] [] []]; try discriminate; contradiction. }
  intros H. apply andb_true_iff in H as [Hlen Hx]. apply bool_decide_eq_true in Hlen.
  assert (Hunit : in_unit_interval F1 = true) by reflexivity.
  destruct x as [|a [|b [|c [|d [|e [|f [|g [|h [|i x]]]]]]]]];
    simpl in Hlen;
    repeat (apply elem_of_cons in Hlen as [Hlen|Hlen]; [try discriminate Hlen|]);
    try (apply elem_of_nil in Hlen; contradiction);
    simpl in Hx; rewrite ?andb_true_iff in Hx.
  - destruct Hx as (Ha & Hb & Hc & _).
    eexists. split; [apply parse_color_hex3; simpl; rewrite Ha, Hb, Hc; reflexivity|].
    unfold normalized. rewrite !hex_pair_unit by assumption. reflexivity.
  - destruct Hx as (Ha & Hb & Hc & Hd & He & Hf & _).
    eexists. split.
    { apply (parse_color_hex6 a b c d e f). simpl. rewrite Ha, Hb, Hc, Hd, He, Hf. reflexivity. }
    unfold normalized. rewrite !hex_pair_unit by assumption. reflexivity.
  - destruct Hx as (Ha & Hb & Hc & Hd & He & Hf & Hg & Hh & _).
    eexists. split.
    { apply (parse_color_hex8 a b c d e f g h). simpl.
      rewrite Ha, Hb, Hc, Hd, He, Hf, Hg, Hh. reflexivity. }
    unfold normalized. rewrite !hex_pair_unit by assumption. reflexivity.
Qed.

Lemma parse_color_hex_normalized_witness :
  hex_colour "#1aF0c980" = true /\
  exists c, _parse_color "#1aF0c980" = Ok c /\ normalized c = true.
Proof.
  assert (H : hex_colour "#1aF0c980" = true) by reflexivity.
  split; [exact H|]. exact (parse_color_hex_normalized "#1aF0c980" H).
Defined.

(** ** Decimal channels *)

Lemma digit_no_space (c : ascii) : is_digit c = true -> is_space_re c = false.
Proof.
  intros H. destruct c as [[] [] [] [] [] [] [] []]; try discriminate H; reflexivity.
Qed.

Lemma span_app_stop (p : ascii -> bool) (ds : string) (c : ascii) (x : string) :
  all_chars p ds = true -> p c = false -> span p (ds +:+ String c x) = (ds, String c x).
Proof.
  intros Hds Hc. induction ds as [|d ds IH].
  - change ("" +:+ String c x) with (String c x). simpl. rewrite Hc. reflexivity.
  - change (String d ds +:+ String c x) with (String d (ds +:+ String c x)).
    simpl in Hds. apply andb_true_iff in Hds as [Hd Hds]. simpl.
    rewrite Hd, (IH Hds). reflexivity.
Qed.

Lemma number_then_digits (stop : ascii) (ds x : string) :
  ds <> "" -> all_chars is_digit ds = true ->
  is_digit stop = false -> is_space_re stop = false ->
  number_then (String stop "") (ds +:+ String stop x) = Some (ds, x).
Proof.
  intros Hne Hds Hstop Hspace. unfold number_then, skip_spaces.
  destruct ds as [|d ds]; [contradiction|].
  pose proof Hds as Hd. simpl in Hd. apply andb_true_iff in Hd as [Hd _].
  change (String d ds +:+ String stop x) with (String d (ds +:+ String stop x)).
  cbn [drop_while]. rewrite (digit_no_space d Hd).
  change (String d (ds +:+ String stop x)) with (String d ds +:+ String stop x).
  rewrite (span_app_stop _ _ _ _ Hds Hstop).
  cbn [drop_while]. rewrite Hspace. cbn [drop_prefix].
  rewrite Ascii.eqb_refl. reflexivity.
Qed.

Lemma rgb_match_text (r g b : string) :
  r <> "" -> g <> "" -> b <> "" ->
  all_chars is_digit r = true -> all_chars is_digit g = true -> all_chars is_digit b = true ->
  rgb_match (rgb_text r g b) = Some (r, g, b).
Proof.
  intros Hr Hg Hb Dr Dg Db. unfold rgb_match, rgb_text.
  change (drop_prefix "rgb(" ("rgb(" +:+ r +:+ "," +:+ g +:+ "," +:+ b +:+ ")"))
    with (Some (r +:+ String "," (g +:+ String "," (b +:+ String ")" "")))).
  cbn [mbind option_bind].
  rewrite (number_then_digits "," r) by (assumption || reflexivity). cbn [mbind option_bind].
  rewrite (number_then_digits "," g) by (assumption || reflexivity). cbn [mbind option_bind].
  rewrite (number_then_digits ")" b) by (assumption || reflexivity). reflexivity.
Qed.

Lemma digit_value_digit (c : ascii) :
  is_digit c = true ->
  digit_value c = Z.of_N (code c) - 48 /\ 0 <= digit_value c < 10.
Proof.
  intros H. unfold digit_value. rewrite H. split; [reflexivity|].
  unfold is_digit, in_range in H. apply andb_true_iff in H as [H1 H2].
  apply N.leb_le in H1, H2. lia.
Qed.

Lemma scan_digits_decimal (s : string) :
  all_chars is_digit s = true ->
  forall acc n,
    scan_digits 10 false acc n s = Some (digits_value acc s, (n + String.length s)%nat, "").
Proof.
  induction s as [|c s IH]; intros Hs acc n; simpl.
  - rewrite Nat.add_0_r. reflexivity.
  - simpl in Hs. apply andb_true_iff in Hs as [Hc Hs].
    destruct (digit_plain c Hc) as (_ & -> & _).
    destruct (digit_value_digit c Hc) as [Hv Hrange].
    rewrite (proj2 (Z.ltb_lt _ _)) by lia.
    rewrite (IH Hs), Hv. do 3 f_equal. lia.
Qed.

Lemma digits_value_bound (s : string) :
  all_chars is_digit s = true ->
  forall acc, 0 <= acc ->
    0 <= digits_value acc s < (acc + 1) * 10 ^ Z.of_nat (String.length s).
Proof.
  induction s as [|c s IH]; intros Hs acc Hacc.
  - simpl. lia.
  - simpl in Hs. apply andb_true_iff in Hs as [Hc Hs].
    destruct (digit_value_digit c Hc) as [Hv Hrange]. rewrite Hv in Hrange.
    cbn [digits_value String.length].
    specialize (IH Hs (acc * 10 + (Z.of_N (code c) - 48)) ltac:(lia)).
    rewrite Nat2Z.inj_succ, Z.pow_succ_r by lia.
    assert (0 < 10 ^ Z.of_nat (String.length s)) by (apply Z.pow_pos_nonneg; lia).
    nia.
Qed.

(** [int] reads a decimal numeral as its value. *)
Lemma py_int_decimal (s : string) :
  s <> "" -> all_chars is_digit s = true -> (String.length s <= 4300)%nat ->
  py_int 10 s = Ok (digits_value 0 s).
Proof.
  intros Hne Hs Hlen. destruct s as [|c s]; [contradiction|].
  pose proof (scan_digits_decimal _ Hs 0 0%nat) as Hscan.
  pose proof Hs as Hc. simpl in Hc. apply andb_true_iff in Hc as [Hc _].
  assert (Hlong : (max_str_digits <? String.length (String c s))%nat = false)
    by (apply Nat.ltb_ge; exact Hlen).
  destruct (digit_plain c Hc) as (Hspace & _).
  unfold py_int. cbn [drop_while]. rewrite Hspace.
  destruct c as [[] [] [] [] [] [] [] []]; try discriminate Hc; cbv beta iota zeta;
    try (destruct s; cbv beta iota zeta; cbn [Z.eqb Pos.eqb andb]; cbv beta iota zeta);
    rewrite Hscan; cbn [Nat.add]; rewrite Hlong;
    cbn [Nat.eqb String.length drop_while negb andb Z.eqb Pos.eqb];
    rewrite ?Z.mul_1_l; reflexivity.
Qed.

(** A value below 10^308 over 255 is a finite float. *)
Lemma truediv_small (v : Z) :
  0 <= v < 10 ^ 308 -> truediv v 255 = Ok (Fin (Qred (v # 255))).
Proof.
  intros Hv. unfold truediv, round_overflow.
  assert (HB : 10 ^ 308 < overflow_bound) by (vm_compute; reflexivity).
  change (Z.to_pos 255) with 255%positive.
  remember overflow_bound as B eqn:EB. remember (10 ^ 308) as T eqn:ET.
  destruct (Qle_bool (inject_Z B) (v # 255)) eqn:E1.
  { apply Qle_bool_iff in E1. unfold Qle in E1. simpl in E1. lia. }
  destruct (Qle_bool (v # 255) (inject_Z (- B))) eqn:E2.
  { apply Qle_bool_iff in E2. unfold Qle in E2. simpl in E2. lia. }
  reflexivity.
Qed.

Lemma decimal_spec (s : string) :
  decimal s = true ->
  s <> "" /\ all_chars is_digit s = true /\ (String.length s <= 308)%nat.
Proof.
  unfold decimal. rewrite !andb_true_iff, negb_true_iff, bool_decide_eq_false.
  intros [[H1 H2] H3]. apply Nat.leb_le in H3. auto.
Qed.

Lemma dec_channel_decimal (s : string) :
  decimal s = true -> dec_channel s = Ok (channel_of s).
Proof.
  intros (Hne & Hs & Hlen)%decimal_spec. unfold dec_channel, channel_of.
  rewrite py_int_decimal by (assumption || lia). cbn [mbind result_bind].
  apply truediv_small.
  pose proof (digits_value_bound s Hs 0 ltac:(lia)) as Hb.
  assert (10 ^ Z.of_nat (String.length s) <= 10 ^ 308)
    by (apply Z.pow_le_mono_r; lia).
  lia.
Qed.

Lemma color_map_rgb (x : string) : color_map !! String "r" (String "g" x) = None.
Proof.
  unfold color_map. apply not_elem_of_list_to_map_1. simpl.
  rewrite !elem_of_cons, elem_of_nil. intros H.
  repeat (destruct H as [H|H]; [discriminate H|]). exact H.
Qed.

(** X4. Decimal channels.  For decimal numerals r, g, b (one to 308
    digits each), the text [rgb(r,g,b)] resolves to the channels r/255,
    g/255, b/255 with alpha 1: the values are divided by 255 and are not
    clamped. *)
Theorem parse_color_rgb_channels (r g b : string) :
  decimal r = true -> decimal g = true -> decimal b = true ->
  _parse_color (rgb_text r g b) = Ok (channel_of r, channel_of g, channel_of b, F1).
Proof.
  intros Hr Hg Hb.
  destruct (decimal_spec r Hr) as (Nr & Dr & _).
  destruct (decimal_spec g Hg) as (Ng & Dg & _).
  destruct (decimal_spec b Hb) as (Nb & Db & _).
  pose proof (rgb_match_text r g b Nr Ng Nb Dr Dg Db) as Hmatch.
  unfold _parse_color, rgb_body. rewrite Hmatch.
  unfold rgb_text.
  change ("rgb(" +:+ r +:+ "," +:+ g +:+ "," +:+ b +:+ ")")
    with (String "r" (String "g" (String "b" (String "("
            (r +:+ "," +:+ g +:+ "," +:+ b +:+ ")"))))).
  rewrite bool_decide_eq_false_2 by discriminate.
  cbn [lower]. change (lower_char "r") with "r"%char. change (lower_char "g") with "g"%char.
  rewrite bool_decide_eq_false_2 by discriminate.
  rewrite color_map_rgb.
  change (startswith "#" (String "r" ?x)) with false. cbv iota.
  cbn [orb mbind result_bind].
  rewrite !dec_channel_decimal by assumption. reflexivity.
Qed.

Lemma parse_color_rgb_channels_witness :
  decimal "300" = true /\ decimal "0" = true /\ decimal "51" = true /\
  _parse_color "rgb(300,0,51)" = Ok (channel_of "300", channel_of "0", channel_of "51", F1).
Proof.
  assert (H1 : decimal "300" = true) by reflexivity.
  assert (H2 : decimal "0" = true) by reflexivity.
  assert (H3 : decimal "51" = true) by reflexivity.
  split; [exact H1|]. split; [exact H2|]. split; [exact H3|].
  exact (parse_color_rgb_channels "300" "0" "51" H1 H2 H3).
Defined.

(** ** What the resolver raises *)

(** What the number parsers raise. *)
Lemma py_int_raises (base : Z) (s : string) (e : exn) :
  py_int base s = Raise e -> e = ValueError.
Proof.
  unfold py_int.
  match goal with |- context [let '(a, b) := ?X in _] => destruct X as [sign s2] end.
  match goal with |- context [scan_digits base false 0 0 ?t] => generalize t end.
  intros s3.
  assert (Hscan : match scan_digits base false 0 0 s3 with
                  | Some (v, n, rest) =>
                      if (n =? 0)%nat then Raise ValueError
                      else if negb (base =? 16) && (max_str_digits <? n)%nat
                           then Raise ValueError
                           else match drop_while is_space_num rest with
                                | EmptyString => Ok (sign * v)
                                | _ => Raise ValueError
                                end
                  | None => Raise ValueError
                  end = Raise e -> e = ValueError).
  { destruct (scan_digits base false 0 0 s3) as [[[v n] rest]|]; [|congruence].
    destruct (n =? 0)%nat; [congruence|].
    destruct (negb (base =? 16) && (max_str_digits <? n)%nat); [congruence|].
    destruct (drop_while is_space_num rest); congruence. }
  destruct s3 as [|c r]; [exact Hscan|].
  destruct c as [[] [] [] [] [] [] [] []]; solve [exact Hscan | congruence].
Qed.

Lemma truediv_raises (n d : Z) (e : exn) : truediv n d = Raise e -> e = OverflowError.
Proof. unfold truediv. case_match; intros; simplify_eq; reflexivity. Qed.

Lemma py_float_raises (s : string) (e : exn) : py_float s = Raise e -> e = ValueError.
Proof.
  unfold py_float.
  destruct (remove_underscores _ _) as [t|]; [|congruence].
  match goal with |- context [let '(a, b) := ?X in _] => destruct X as [negative t1] end.
  destruct (span is_digit t1) as [ip r1].
  match goal with |- context [let '(a, b) := ?X in _] => destruct X as [fp r2] end.
  destruct (ip +:+ fp).
  - destruct (parse_inf_or_nan negative t1); congruence.
  - destruct (parse_exponent r2); congruence.
Qed.

(** Two characters read as a hex number are too small to overflow. *)
Lemma hex_channel_two (a b : ascii) :
  hex_channel (two a b) = Raise ValueError \/ exists v, hex_channel (two a b) = Ok v.
Proof.
  pose proof (forall_ascii2
    (fun a b => match hex_channel (two a b) with
                | Ok _ | Raise ValueError => true
                | Raise _ => false
                end)) as H.
  specialize (H ltac:(vm_compute; reflexivity) a b). cbv beta in H.
  destruct (hex_channel (two a b)) as [v|[]]; try discriminate H; eauto.
Qed.

Lemma except_ValueError_pass_raises {A} (body : result (option A)) (e : exn) :
  except_ValueError_pass body = Raise e -> body = Raise e /\ e <> ValueError.
Proof.
  destruct body as [v|[]]; simpl; intros H; try discriminate H;
    injection H as <-; split; try reflexivity; discriminate.
Qed.

(** The hex branch raises nothing but [ValueError], which is caught. *)
Lemma hex_body_raises (color_str : string) (e : exn) :
  hex_body color_str = Raise e -> e = ValueError.
Proof.
  unfold hex_body. generalize (lstrip "#" color_str). intros color.
  destruct color as [|a [|b [|c [|d [|e' [|f [|g [|h [|i x]]]]]]]]]; simpl;
    try discriminate.
  - change (twice_at 0 _) with (two a a). change (twice_at 1 _) with (two b b).
    change (twice_at 2 _) with (two c c).
    destruct (hex_channel_two a a) as [->|[? ->]]; simpl; [intros [= <-]; reflexivity|].
    destruct (hex_channel_two b b) as [->|[? ->]]; simpl; [intros [= <-]; reflexivity|].
    destruct (hex_channel_two c c) as [->|[? ->]]; simpl; [intros [= <-]; reflexivity|].
    discriminate.
  - change (slice 0 2 _) with (two a b). change (slice 2 4 _) with (two c d).
    change (slice 4 6 _) with (two e' f).
    destruct (hex_channel_two a b) as [->|[? ->]]; simpl; [intros [= <-]; reflexivity|].
    destruct (hex_channel_two c d) as [->|[? ->]]; simpl; [intros [= <-]; reflexivity|].
    destruct (hex_channel_two e' f) as [->|[? ->]]; simpl; [intros [= <-]; reflexivity|].
    discriminate.
  - change (slice 0 2 _) with (two a b). change (slice 2 4 _) with (two c d).
    change (slice 4 6 _) with (two e' f). change (slice 6 8 _) with (two g h).
    destruct (hex_channel_two a b) as [->|[? ->]]; simpl; [intros [= <-]; reflexivity|].
    destruct (hex_channel_two c d) as [->|[? ->]]; simpl; [intros [= <-]; reflexivity|].
    destruct (hex_channel_two e' f) as [->|[? ->]]; simpl; [intros [= <-]; reflexivity|].
    destruct (hex_channel_two g h) as [->|[? ->]]; simpl; [intros [= <-]; reflexivity|].
    discriminate.
Qed.

Lemma dec_channel_raises (s : string) (e : exn) :
  dec_channel s = Raise e -> e = ValueError \/ e = OverflowError.
Proof.
  unfold dec_channel. destruct (py_int 10 s) as [n|e'] eqn:Hint; simpl.
  - intros H%truediv_raises. auto.
  - intros [= <-]. left. exact (py_int_raises _ _ _ Hint).
Qed.

Lemma rgb_body_raises (color_str : string) (e : exn) :
  rgb_body color_str = Raise e -> e = OverflowError /\ is_Some (rgb_match color_str).
Proof.
  unfold rgb_body. destruct (rgb_match color_str) as [[[g1 g2] g3]|]; [|discriminate].
  intros [Hbody Hne]%except_ValueError_pass_raises. split; [|eauto].
  destruct (dec_channel g1) as [r|e1] eqn:H1; simpl in Hbody;
    [|injection Hbody as ->; destruct (dec_channel_raises _ _ H1); congruence].
  destruct (dec_channel g2) as [g|e2] eqn:H2; simpl in Hbody;
    [|injection Hbody as ->; destruct (dec_channel_raises _ _ H2); congruence].
  destruct (dec_channel g3) as [b|e3] eqn:H3; simpl in Hbody;
    [discriminate Hbody|injection Hbody as ->; destruct (dec_channel_raises _ _ H3); congruence].
Qed.

Lemma rgba_body_raises (color_str : string) (e : exn) :
  rgba_body color_str = Raise e -> e = OverflowError /\ is_Some (rgba_match color_str).
Proof.
  unfold rgba_body. destruct (rgba_match color_str) as [[[[g1 g2] g3] g4]|]; [|discriminate].
  intros [Hbody Hne]%except_ValueError_pass_raises. split; [|eauto].
  destruct (dec_channel g1) as [r|e1] eqn:H1; simpl in Hbody;
    [|injection Hbody as ->; destruct (dec_channel_raises _ _ H1); congruence].
  destruct (dec_channel g2) as [g|e2] eqn:H2; simpl in Hbody;
    [|injection Hbody as ->; destruct (dec_channel_raises _ _ H2); congruence].
  destruct (dec_channel g3) as [b|e3] eqn:H3; simpl in Hbody;
    [|injection Hbody as ->; destruct (dec_channel_raises _ _ H3); congruence].
  destruct (py_float g4) as [a|e4] eqn:H4; simpl in Hbody;
    [discriminate Hbody|injection Hbody as ->].
  apply py_float_raises in H4. congruence.
Qed.

(** X5. The only exception that [_parse_color] lets through is
    [OverflowError], and only for a text that does not start with a hash
    and that matches the [rgb(...)] or the [rgba(...)] pattern: a
    [ValueError] never escapes, and a text that starts with a hash never
    raises. *)
Theorem parse_color_raises_only_overflow (s : string) (e : exn) :
  _parse_color s = Raise e ->
  e = OverflowError /\
  startswith "#" s = false /\
  (is_Some (rgb_match s) \/ is_Some (rgba_match s)).
Proof.
  unfold _parse_color.
  destruct (_ || _); [discriminate|].
  destruct (color_map !! lower s); [discriminate|].
  assert (Hhex : forall x, rgb_match (String "#" x) = None /\ rgba_match (String "#" x) = None)
    by (intros x; split; reflexivity).
  destruct (startswith "#" s) eqn:Hstart.
  - destruct (except_ValueError_pass (hex_body s)) as [[c|]|e'] eqn:Hbody; simpl;
      [discriminate| |].
    + destruct s as [|ch x]; [discriminate Hstart|].
      assert (ch = "#"%char) as ->.
      { unfold startswith in Hstart.
        change (String.prefix "#" (String ch x))
          with (if ascii_dec "#" ch then String.prefix "" x else false) in Hstart.
        destruct (ascii_dec "#" ch); congruence. }
      unfold rgb_body, rgba_body. destruct (Hhex x) as [-> ->]. simpl. discriminate.
    + apply except_ValueError_pass_raises in Hbody as [Hbody Hne].
      apply hex_body_raises in Hbody. contradiction.
  - simpl. destruct (rgb_body s) as [[c|]|e1] eqn:Hrgb; simpl; [discriminate| |].
    + destruct (rgba_body s) as [[c|]|e2] eqn:Hrgba; simpl; try discriminate.
      intros [= <-]. apply rgba_body_raises in Hrgba as [-> Hm]. auto.
    + intros [= <-]. apply rgb_body_raises in Hrgb as [-> Hm]. auto.
Qed.

Lemma parse_color_raises_only_overflow_witness :
  _parse_color huge_rgb = Raise OverflowError /\ is_Some (rgb_match huge_rgb).
Proof.
  assert (H : _parse_color huge_rgb = Raise OverflowError) by (vm_compute; reflexivity).
  split; [exact H|].
  destruct (parse_color_raises_only_overflow huge_rgb OverflowError H) as (_ & _ & [Hm|Hm]).
  - exact Hm.
  - vm_compute in Hm. destruct Hm as [x Hx]. discriminate Hx.
Defined.

(** ** The background colour *)

(** X6. The background parser of [convert_svg_to_lottie] reads the first
    six characters after the hash as three hex pairs over 255 and sets
    alpha to 1; whatever follows the sixth character (such as the alpha
    pair of an eight-digit colour) is ignored. *)
Theorem background_fill_reads_six (a b c d e f : ascii) (rest : string) :
  forallb is_hex_digit [a; b; c; d; e; f] = true ->
  background_fill (String "#" (two a b +:+ two c d +:+ two e f +:+ rest)) =
  Ok (hex_pair a b, hex_pair c d, hex_pair e f, F1).
Proof.
  intros H. simpl in H. rewrite !andb_true_iff in H.
  destruct H as (Ha & Hb & Hc & Hd & He & Hf & _).
  unfold background_fill.
  change (String "#" (two a b +:+ two c d +:+ two e f +:+ rest))
    with (String "#" (String a (String b (String c (String d (String e (String f rest))))))).
  cbn [lstrip]. change (Ascii.eqb "#" "#") with true. cbv iota.
  rewrite (hex_digit_not_hash a Ha).
  replace (slice 0 2 (String a (String b (String c (String d (String e (String f rest)))))))
    with (two a b) by (destruct rest; reflexivity).
  replace (slice 2 4 (String a (String b (String c (String d (String e (String f rest)))))))
    with (two c d) by (destruct rest; reflexivity).
  replace (slice 4 6 (String a (String b (String c (String d (String e (String f rest)))))))
    with (two e f) by (destruct rest; reflexivity).
  rewrite !hex_channel_pair by assumption. reflexivity.
Qed.

Lemma background_fill_reads_six_witness :
  forallb is_hex_digit ["f"; "f"; "0"; "0"; "8"; "0"]%char = true /\
  background_fill "#ff008040" = Ok (hex_pair "f" "f", hex_pair "0" "0", hex_pair "8" "0", F1).
Proof.
  split; [reflexivity|].
  exact (background_fill_reads_six "f" "f" "0" "0" "8" "0" "40" eq_refl).
Defined.





(** ** Outcomes of a conversion *)


(** A conversion whose export fails writes nothing. *)
Lemma convert_not_exported (self : SVGToLottieConverter.t) (file : option node)
    (cfg : animation_config) (console : list text) :
  converted (convert_svg_to_lottie self file false cfg console) = None.
Proof.
  unfold convert_svg_to_lottie. destruct file as [doc|]; simpl; [|reflexivity].
  destruct (background_layer _ _ _); simpl; [|reflexivity].
  destruct (_process_element_groups _ _ _ _). reflexivity.
Qed.

(** A conversion whose export succeeds writes an animation. *)
Lemma convert_exported (self : SVGToLottieConverter.t) (doc : node)
    (cfg : animation_config) (console : list text) conv json console' :
  convert_svg_to_lottie self (Some doc) true cfg console = Ok (conv, json, console') ->
  is_Some json.
Proof.
  unfold convert_svg_to_lottie. simpl.
  destruct (background_layer _ _ _); simpl; [|discriminate].
  destruct (_process_element_groups _ _ _ _). intros [= <- <- <-]. eauto.
Qed.



(** ** Quiet runs of the converter *)









(** ** The classifier *)

(** X9. The verdict of [analyze_structure] on a loaded document: the
    structure is flat exactly when the document holds fewer than 3 group
    elements and more than 20 path elements, counted at any depth. *)
Theorem analyze_structure_verdict (self : SVGParser.t) (doc : node) :
  (SVGParser.analyze_structure (loaded self doc)).2 =
  bool_decide (count_tags ["g"] doc < 3)%nat && bool_decide (20 < count_tags ["path"] doc)%nat.
Proof.
  destruct (analyze_counts self doc) as (Hg & Hp & _).
  unfold load_and_analyze in Hg, Hp.
  unfold SVGParser.analyze_structure in *. simpl in *. rewrite Hg, Hp. reflexivity.
Qed.

(** *** Every mentioned identifier has an entry *)

Lemma save_node_content_original element_id tag a children eg k :
  is_Some (SVGParser.original_elements
             (SVGParser._save_node_content element_id tag a children eg) !! k) ->
  k = element_id \/ is_Some (SVGParser.original_elements eg !! k).
Proof.
  unfold SVGParser._save_node_content.
  destruct (SVGParser.node_content tag a children) as [[|e es]|]; simpl; auto.
  destruct (decide (k = element_id)) as [->|Hne]; [auto|].
  rewrite lookup_insert_ne by congruence. auto.
Qed.

Lemma classify_mentioned element_id tag eg k :
  mentioned (SVGParser.classify element_id tag eg) k -> k = element_id \/ mentioned eg k.
Proof.
  unfold mentioned, SVGParser.classify.
  destruct (decide (tag = "g")); [|destruct (decide (tag = "path"));
    [|destruct (SVGParser.is_shape_tag tag)]]; simpl;
    rewrite ?elem_of_app, ?list_elem_of_singleton; tauto.
Qed.

Lemma step_mentioned element_id tag a children eg k :
  mentioned (SVGParser.classify element_id tag
               (SVGParser._save_node_content element_id tag a children eg)) k ->
  k = element_id \/ mentioned eg k.
Proof.
  intros [->|H]%classify_mentioned; [auto|].
  destruct (save_node_content_lists element_id tag a children eg) as (Hg & Hp & Hs).
  unfold mentioned in *. rewrite Hg, Hp, Hs in H.
  destruct H as [H|[H|[H|H]]]; auto.
  apply save_node_content_original in H as [->|H]; auto.
Qed.

Lemma process_node_covers (n : node) :
  forall parent_id st, entries_cover st -> entries_cover (SVGParser.process_node n parent_id st).
Proof.
  induction n as [data | tag a children IH] using node_children_ind;
    intros parent_id st Hst; [exact Hst|].
  simpl. set (element_id := SVGParser.element_id_of a st.1).
  set (start := (_, _)).
  assert (Hstart : entries_cover start).
  { intros k Hk. unfold start in *. simpl in *.
    apply step_mentioned in Hk as [->|Hk].
    - rewrite lookup_insert_eq. eauto.
    - apply lookup_insert_is_Some'. right. apply Hst, Hk. }
  clearbody start. revert start Hstart.
  induction IH as [|c cs Hc _ IHcs]; intros start Hstart; simpl; [exact Hstart|].
  apply IHcs, Hc, Hstart.
Qed.

Lemma step_paths_stored element_id tag a children eg :
  paths_stored eg ->
  paths_stored (SVGParser.classify element_id tag
                  (SVGParser._save_node_content element_id tag a children eg)).
Proof.
  intros Heg k.
  assert (Hkeep : forall k,
    (exists e es, SVGParser.original_elements eg !! k = Some (e :: es)) ->
    exists e es, SVGParser.original_elements
      (SVGParser._save_node_content element_id tag a children eg) !! k = Some (e :: es)).
  { intros k' (e & es & Hk). unfold SVGParser._save_node_content.
    destruct (SVGParser.node_content tag a children) as [[|e' es']|]; simpl; eauto.
    destruct (decide (k' = element_id)) as [->|Hne].
    - rewrite lookup_insert_eq. eauto.
    - rewrite lookup_insert_ne by congruence. eauto. }
  destruct (save_node_content_lists element_id tag a children eg) as (Hg & Hp & Hs).
  unfold SVGParser.classify.
  destruct (decide (tag = "g")) as [->|Hg'];
    [simpl; rewrite Hp; intros Hk; apply Hkeep, Heg, Hk|].
  destruct (decide (tag = "path")) as [->|Hp'].
  - cbn [SVGParser.paths SVGParser.original_elements]. rewrite Hp.
    intros [Hk | ->%list_elem_of_singleton]%elem_of_app;
      [apply Hkeep, Heg, Hk|].
    unfold SVGParser._save_node_content, SVGParser.node_content. simpl.
    rewrite lookup_insert_eq. eauto.
  - destruct (SVGParser.is_shape_tag tag); simpl; rewrite Hp; intros Hk;
      apply Hkeep, Heg, Hk.
Qed.

Lemma process_node_paths_stored (n : node) :
  forall parent_id st, paths_stored st.2 ->
    paths_stored (SVGParser.process_node n parent_id st).2.
Proof.
  induction n as [data | tag a children IH] using node_children_ind;
    intros parent_id st Hst; [exact Hst|].
  simpl. set (element_id := SVGParser.element_id_of a st.1).
  set (start := (_, _)).
  assert (Hstart : paths_stored start.2) by (apply step_paths_stored, Hst).
  clearbody start. revert start Hstart.
  induction IH as [|c cs Hc _ IHcs]; intros start Hstart; simpl; [exact Hstart|].
  apply IHcs, Hc, Hstart.
Qed.

(** X10. After a run of load and analysis, on any parser instance and any
    document: every identifier that the element groups mention (in the
    lists of groups, paths and shapes, or as a key of the stored elements)
    has an entry in the structure map; and every listed path has stored
    elements, so [get_element_by_id] returns a list that is not empty for
    it. *)
Theorem listed_identifiers_resolve (self : SVGParser.t) (doc : node) :
  let self' := load_and_analyze self doc in
  (forall element_id, mentioned (SVGParser.element_groups self') element_id ->
     is_Some (SVGParser.structure_map self' !! element_id)) /\
  (forall element_id, element_id ∈ SVGParser.paths (SVGParser.element_groups self') ->
     exists e es, SVGParser.get_element_by_id self' element_id = Some (e :: es)).
Proof.
  unfold load_and_analyze, loaded, SVGParser.analyze_structure,
    SVGParser._analyze_with_minidom, SVGParser.get_element_by_id. simpl.
  pose proof (process_node_covers doc None
                (SVGParser.structure_map self, SVGParser.empty_groups)) as Hcover.
  pose proof (process_node_paths_stored doc None
                (SVGParser.structure_map self, SVGParser.empty_groups)) as Hstored.
  destruct (SVGParser.process_node doc None _) as [m eg]. simpl in *. split.
  - apply Hcover. intros k [Hk|[Hk|[Hk|Hk]]]; simpl in Hk;
      try (apply elem_of_nil in Hk; contradiction).
    rewrite lookup_empty in Hk. destruct Hk as [x Hx]. discriminate Hx.
  - apply Hstored. intros k Hk. apply elem_of_nil in Hk. contradiction.
Qed.

(** *** Documents whose elements all carry an identifier *)

Lemma element_id_explicit (a : list (string * string))
    (m : gmap string SVGParser.structure_entry) :
  getAttribute a "id" <> "" -> SVGParser.element_id_of a m = getAttribute a "id".
Proof.
  intros H. unfold SVGParser.element_id_of.
  destruct (getAttribute a "id"); [contradiction|reflexivity].
Qed.

Lemma all_identified_element tag a children :
  all_identified (Element tag a children) = true ->
  getAttribute a "id" <> "" /\ forallb all_identified children = true.
Proof.
  simpl. rewrite andb_true_iff, negb_true_iff, bool_decide_eq_false. auto.
Qed.

(** The element groups do not depend on the structure map. *)
Lemma process_node_stable (n : node) :
  all_identified n = true ->
  forall parent_id m1 m2 eg,
    (SVGParser.process_node n parent_id (m1, eg)).2 =
    (SVGParser.process_node n parent_id (m2, eg)).2.
Proof.
  induction n as [data | tag a children IH] using node_children_ind;
    intros Hn parent_id m1 m2 eg; [reflexivity|].
  apply all_identified_element in Hn as [Hid Hch].
  simpl. rewrite !element_id_explicit by exact Hid.
  generalize (<[getAttribute a "id" :=
                 {| SVGParser.entry_type := tag; SVGParser.entry_parent := parent_id |}]> m1).
  generalize (<[getAttribute a "id" :=
                 {| SVGParser.entry_type := tag; SVGParser.entry_parent := parent_id |}]> m2).
  generalize (SVGParser.classify (getAttribute a "id") tag
                (SVGParser._save_node_content (getAttribute a "id") tag a children eg)).
  clear eg m1 m2.
  induction IH as [|c cs Hc _ IHcs]; intros eg m2 m1; simpl; [reflexivity|].
  simpl in Hch. apply andb_true_iff in Hch as [Hc' Hcs].
  pose proof (Hc Hc' (Some (getAttribute a "id")) m1 m2 eg) as Heq.
  destruct (SVGParser.process_node c _ (m1, eg)) as [m1' eg1].
  destruct (SVGParser.process_node c _ (m2, eg)) as [m2' eg2].
  simpl in Heq. subst eg2. apply IHcs, Hcs.
Qed.

Section Listing.

(** One of the three identifier lists, and the tags that feed it. *)
Variable bucket : element_groups_t -> list string.
Variable tags : list string.

Hypothesis bucket_classify : forall element_id tag eg,
  bucket (SVGParser.classify element_id tag eg) =
  bucket eg ++ (if bool_decide (tag ∈ tags) then [element_id] else []).

Hypothesis bucket_save : forall element_id tag a children eg,
  bucket (SVGParser._save_node_content element_id tag a children eg) = bucket eg.

Lemma process_node_listing (n : node) :
  all_identified n = true ->
  forall parent_id st,
    bucket (SVGParser.process_node n parent_id st).2 = bucket st.2 ++ ids_of tags n.
Proof.
  induction n as [data | tag a children IH] using node_children_ind;
    intros Hn parent_id st; [simpl; rewrite app_nil_r; reflexivity|].
  apply all_identified_element in Hn as [Hid Hch].
  simpl. rewrite element_id_explicit by exact Hid.
  set (start := (_, _)).
  assert (Hstart : bucket start.2 =
            bucket st.2 ++ (if bool_decide (tag ∈ tags) then [getAttribute a "id"] else []))
    by (unfold start; simpl; rewrite bucket_classify, bucket_save; reflexivity).
  rewrite app_assoc, <- Hstart. clearbody start. clear Hstart.
  revert start. induction IH as [|c cs Hc _ IHcs]; intros start; simpl.
  - rewrite app_nil_r. reflexivity.
  - simpl in Hch. apply andb_true_iff in Hch as [Hc' Hcs].
    rewrite (IHcs Hcs), (Hc Hc'), app_assoc. reflexivity.
Qed.

End Listing.

Lemma classify_paths_list element_id tag eg :
  SVGParser.paths (SVGParser.classify element_id tag eg) =
  SVGParser.paths eg ++ (if bool_decide (tag ∈ ["path"]) then [element_id] else []).
Proof.
  unfold SVGParser.classify.
  destruct (decide (tag = "g")) as [->|Hg]; [simpl; rewrite app_nil_r; reflexivity|].
  destruct (decide (tag = "path")) as [->|Hp]; [reflexivity|].
  rewrite bool_decide_eq_false_2 by (rewrite list_elem_of_singleton; exact Hp).
  destruct (SVGParser.is_shape_tag tag); simpl; rewrite app_nil_r; reflexivity.
Qed.

Lemma classify_groups_list element_id tag eg :
  SVGParser.groups (SVGParser.classify element_id tag eg) =
  SVGParser.groups eg ++ (if bool_decide (tag ∈ ["g"]) then [element_id] else []).
Proof.
  unfold SVGParser.classify.
  destruct (decide (tag = "g")) as [->|Hg]; [reflexivity|].
  rewrite bool_decide_eq_false_2 by (rewrite list_elem_of_singleton; exact Hg).
  destruct (decide (tag = "path")); [simpl; rewrite app_nil_r; reflexivity|].
  destruct (SVGParser.is_shape_tag tag); simpl; rewrite app_nil_r; reflexivity.
Qed.

Lemma classify_shapes_list element_id tag eg :
  SVGParser.shapes (SVGParser.classify element_id tag eg) =
  SVGParser.shapes eg ++ (if bool_decide (tag ∈ shape_tags) then [element_id] else []).
Proof.
  unfold SVGParser.classify.
  destruct (decide (tag = "g")) as [->|Hg]; [simpl; rewrite app_nil_r; reflexivity|].
  destruct (decide (tag = "path")) as [->|Hp]; [simpl; rewrite app_nil_r; reflexivity|].
  unfold SVGParser.is_shape_tag, shape_tags.
  destruct (bool_decide _); simpl; rewrite ?app_nil_r; reflexivity.
Qed.

(** The three lists of an identified document. *)
Lemma analyze_identified (self : SVGParser.t) (doc : node) :
  all_identified doc = true ->
  SVGParser.groups (SVGParser.element_groups (load_and_analyze self doc)) = ids_of ["g"] doc /\
  SVGParser.paths (SVGParser.element_groups (load_and_analyze self doc)) = ids_of ["path"] doc /\
  SVGParser.shapes (SVGParser.element_groups (load_and_analyze self doc))
    = ids_of shape_tags doc.
Proof.
  intros Hdoc.
  unfold load_and_analyze, loaded, SVGParser.analyze_structure,
    SVGParser._analyze_with_minidom. simpl.
  destruct (SVGParser.process_node doc None _) as [m eg] eqn:Hrun. simpl.
  change eg with (m, eg).2. rewrite <- Hrun.
  repeat split.
  - rewrite (process_node_listing SVGParser.groups ["g"]); [reflexivity| | |exact Hdoc].
    + apply classify_groups_list.
    + intros. apply save_node_content_lists.
  - rewrite (process_node_listing SVGParser.paths ["path"]); [reflexivity| | |exact Hdoc].
    + apply classify_paths_list.
    + intros. apply save_node_content_lists.
  - rewrite (process_node_listing SVGParser.shapes shape_tags); [reflexivity| | |exact Hdoc].
    + apply classify_shapes_list.
    + intros. apply save_node_content_lists.
Qed.

(** X11. When every element of the document carries an [id] attribute,
    the lists of the classifier are the [id]s of the group elements, of
    the path elements and of the shape elements, each in document order
    and at any depth. *)
Theorem identified_document_order (self : SVGParser.t) (doc : node) :
  all_identified doc = true ->
  SVGParser.groups (SVGParser.element_groups (load_and_analyze self doc)) = ids_of ["g"] doc /\
  SVGParser.paths (SVGParser.element_groups (load_and_analyze self doc)) = ids_of ["path"] doc /\
  SVGParser.shapes (SVGParser.element_groups (load_and_analyze self doc))
    = ids_of shape_tags doc.
Proof. apply analyze_identified. Qed.

Lemma identified_document_order_witness :
  all_identified doc_identified = true /\
  SVGParser.groups (SVGParser.element_groups (load_and_analyze SVGParser.init doc_identified))
    = ["layer"] /\
  SVGParser.paths (SVGParser.element_groups (load_and_analyze SVGParser.init doc_identified))
    = ["curve"] /\
  SVGParser.shapes (SVGParser.element_groups (load_and_analyze SVGParser.init doc_identified))
    = ["box"; "dot"].
Proof.
  split; [reflexivity|].
  exact (identified_document_order SVGParser.init doc_identified eq_refl).
Defined.

(** X12. When every element of the document carries an [id] attribute,
    the element groups that a run of load and analysis yields do not
    depend on the parser instance: a reused instance classifies the
    document as a fresh one does. *)
Theorem identified_document_stable (self other : SVGParser.t) (doc : node) :
  all_identified doc = true ->
  SVGParser.element_groups (load_and_analyze self doc) =
  SVGParser.element_groups (load_and_analyze other doc).
Proof.
  intros Hdoc.
  unfold load_and_analyze, loaded, SVGParser.analyze_structure,
    SVGParser._analyze_with_minidom. simpl.
  pose proof (process_node_stable doc Hdoc None (SVGParser.structure_map self)
                (SVGParser.structure_map other) SVGParser.empty_groups) as Heq.
  destruct (SVGParser.process_node doc None (SVGParser.structure_map self, _)).
  destruct (SVGParser.process_node doc None (SVGParser.structure_map other, _)).
  exact Heq.
Qed.

Lemma identified_document_stable_witness :
  all_identified doc_identified = true /\
  SVGParser.element_groups
    (load_and_analyze (load_and_analyze SVGParser.init doc_one_path) doc_identified) =
  SVGParser.element_groups (load_and_analyze SVGParser.init doc_identified).
Proof.
  split; [reflexivity|].
  exact (identified_document_stable (load_and_analyze SVGParser.init doc_one_path)
           SVGParser.init doc_identified eq_refl).
Defined.

(** *** The structure map of an identified document *)

Lemma foldl_process_node_entries (children : list node) (parent_id : option string) :
  Forall (fun c => all_identified c = true ->
            forall parent_id st,
              (SVGParser.process_node c parent_id st).1 =
              foldl record_entry st.1 (entries_of parent_id c)) children ->
  forallb all_identified children = true ->
  forall st,
    (foldl (fun acc child => SVGParser.process_node child parent_id acc) st children).1 =
    foldl record_entry st.1 (flat_map (entries_of parent_id) children).
Proof.
  induction 1 as [|c cs Hc _ IH]; intros Hall st; simpl; [reflexivity|].
  simpl in Hall. apply andb_true_iff in Hall as [Hc' Hcs].
  rewrite (IH Hcs), (Hc Hc'), foldl_app. reflexivity.
Qed.

Lemma process_node_entries (n : node) :
  all_identified n = true ->
  forall parent_id st,
    (SVGParser.process_node n parent_id st).1 = foldl record_entry st.1 (entries_of parent_id n).
Proof.
  induction n as [data | tag a children IH] using node_children_ind;
    intros Hn parent_id st; [reflexivity|].
  apply all_identified_element in Hn as [Hid Hch].
  simpl. rewrite element_id_explicit by exact Hid.
  rewrite (foldl_process_node_entries children _ IH Hch). reflexivity.
Qed.

Lemma foldl_record_entry_other (l : list (string * SVGParser.structure_entry)) :
  forall m k, k ∉ l.*1 -> foldl record_entry m l !! k = m !! k.
Proof.
  induction l as [|[k' e] l IH]; intros m k Hk; simpl; [reflexivity|].
  rewrite fmap_cons, not_elem_of_cons in Hk. destruct Hk as [Hne Hk]. simpl in Hne.
  rewrite (IH _ _ Hk). unfold record_entry. simpl. apply lookup_insert_ne. congruence.
Qed.

Lemma foldl_record_entry_lookup (l : list (string * SVGParser.structure_entry)) :
  NoDup l.*1 ->
  forall m k e, (k, e) ∈ l -> foldl record_entry m l !! k = Some e.
Proof.
  induction l as [|[k' e'] l IH]; intros Hnd m k e Hin; [apply elem_of_nil in Hin; contradiction|].
  rewrite fmap_cons in Hnd. apply NoDup_cons in Hnd as [Hfresh Hnd]. simpl.
  apply elem_of_cons in Hin as [[= -> ->]|Hin].
  - rewrite (foldl_record_entry_other l _ _ Hfresh). unfold record_entry. simpl.
    apply lookup_insert_eq.
  - apply (IH Hnd), Hin.
Qed.

Lemma analyze_structure_map (self : SVGParser.t) (doc : node) :
  all_identified doc = true ->
  SVGParser.structure_map (load_and_analyze self doc) =
  foldl record_entry (SVGParser.structure_map self) (entries_of None doc).
Proof.
  intros Hdoc.
  unfold load_and_analyze, loaded, SVGParser.analyze_structure,
    SVGParser._analyze_with_minidom. simpl.
  pose proof (process_node_entries doc Hdoc None
                (SVGParser.structure_map self, SVGParser.empty_groups)) as Hrun.
  destruct (SVGParser.process_node doc None _) as [m eg]. exact Hrun.
Qed.

(** X13. When every element of the document carries an [id] attribute and
    no two elements share one, the structure map after a run of load and
    analysis records for every element its tag and the [id] of its parent
    (none for the root), and the entries of all other identifiers are the
    ones from before the run. *)
Theorem structure_map_records_elements (self : SVGParser.t) (doc : node) :
  all_identified doc = true -> NoDup (entries_of None doc).*1 ->
  (forall element_id entry, (element_id, entry) ∈ entries_of None doc ->
     SVGParser.structure_map (load_and_analyze self doc) !! element_id = Some entry) /\
  (forall element_id, element_id ∉ (entries_of None doc).*1 ->
     SVGParser.structure_map (load_and_analyze self doc) !! element_id
     = SVGParser.structure_map self !! element_id).
Proof.
  intros Hdoc Hnd. rewrite (analyze_structure_map self doc Hdoc). split.
  - intros element_id entry. apply foldl_record_entry_lookup, Hnd.
  - intros element_id. apply foldl_record_entry_other.
Qed.

Lemma structure_map_records_elements_witness :
  all_identified doc_identified = true /\
  NoDup (entries_of None doc_identified).*1 /\
  SVGParser.structure_map (load_and_analyze SVGParser.init doc_identified) !! "curve"
  = Some {| SVGParser.entry_type := "path"; SVGParser.entry_parent := Some "layer" |}.
Proof.
  assert (Hnd : NoDup (entries_of None doc_identified).*1)
    by (apply (bool_decide_eq_true_1 _); vm_compute; reflexivity).
  split; [reflexivity|]. split; [exact Hnd|].
  apply (proj1 (structure_map_records_elements SVGParser.init doc_identified eq_refl Hnd)).
  simpl. repeat first [apply list_elem_of_here | apply list_elem_of_further].
Defined.

(** *** Queries by type *)

Lemma ids_of_entries (tags : list string) (n : node) :
  forall parent_id, ids_of tags n = (filter (has_tag tags) (entries_of parent_id n)).*1.
Proof.
  induction n as [data | tag a children IH] using node_children_ind;
    intros parent_id; [reflexivity|].
  simpl. rewrite filter_cons. unfold has_tag at 1. simpl.
  assert (Hrest : flat_map (ids_of tags) children =
                  (filter (has_tag tags)
                     (flat_map (entries_of (Some (getAttribute a "id"))) children)).*1).
  { induction IH as [|c cs Hc _ IHcs]; [reflexivity|]. simpl.
    rewrite filter_app, fmap_app, <- IHcs, <- Hc. reflexivity. }
  rewrite Hrest.
  destruct (decide (tag ∈ tags)) as [Hin|Hout].
  - rewrite bool_decide_eq_true_2 by exact Hin. reflexivity.
  - rewrite bool_decide_eq_false_2 by exact Hout. reflexivity.
Qed.

Lemma filter_by_lookup (m : gmap string SVGParser.structure_entry) (t : string)
    (l : list (string * SVGParser.structure_entry)) :
  (forall kv, kv ∈ l -> m !! kv.1 = Some kv.2) ->
  filter (fun eid => lower (from_option SVGParser.entry_type "" (m !! eid)) = t) l.*1 =
  (filter (fun kv => lower (SVGParser.entry_type kv.2) = t) l).*1.
Proof.
  induction l as [|kv l IH]; intros Hl; [reflexivity|].
  rewrite fmap_cons, !filter_cons, (Hl kv) by apply list_elem_of_here. simpl.
  rewrite IH by (intros kv' Hkv'; apply Hl, list_elem_of_further, Hkv').
  destruct (decide (lower (SVGParser.entry_type kv.2) = t)); reflexivity.
Qed.

Lemma shape_tag_lower (t : string) : t ∈ shape_tags -> lower t = t.
Proof.
  unfold shape_tags. intros Hin.
  repeat (apply elem_of_cons in Hin as [->|Hin]; [reflexivity|]).
  apply elem_of_nil in Hin. contradiction.
Qed.

Lemma shape_query (t : string) :
  bool_decide (t ∈ ["rect"; "circle"; "ellipse"; "polygon"; "polyline"])
  = bool_decide (t ∈ shape_tags).
Proof.
  apply bool_decide_ext. unfold shape_tags. rewrite !elem_of_cons, !elem_of_nil. tauto.
Qed.

(** X14. Queries by type.  When every element of the document carries an
    [id] attribute and no two elements share one, [get_elements_by_type]
    after a run of load and analysis returns: for ['path'] the [id]s of
    the path elements; for one of the five shape tags the [id]s of the
    elements with that tag; for ['group'] the [id]s of the group elements;
    and the empty list for any other text (the tag ['g'] included). *)
Theorem get_elements_by_type_identified (self : SVGParser.t) (doc : node) (t : string) :
  all_identified doc = true -> NoDup (entries_of None doc).*1 ->
  SVGParser.get_elements_by_type (load_and_analyze self doc) t =
  if decide (t = "path") then ids_of ["path"] doc
  else if bool_decide (t ∈ shape_tags) then ids_of [t] doc
  else if decide (t = "group") then ids_of ["g"] doc
  else [].
Proof.
  intros Hdoc Hnd. destruct (analyze_identified self doc Hdoc) as (Hg & Hp & Hs).
  unfold SVGParser.get_elements_by_type. rewrite Hg, Hp, Hs, shape_query.
  destruct (decide (t = "path")); [reflexivity|].
  destruct (bool_decide_reflect (t ∈ shape_tags)) as [Ht|_]; [|reflexivity].
  rewrite (shape_tag_lower t Ht), (ids_of_entries shape_tags doc None),
    (ids_of_entries [t] doc None).
  rewrite filter_by_lookup.
  - f_equal. rewrite list_filter_filter. apply list_filter_iff.
    intros kv. unfold has_tag. rewrite list_elem_of_singleton. split.
    + intros [Hlow Hshape]. rewrite (shape_tag_lower _ Hshape) in Hlow. exact Hlow.
    + intros ->. split; [apply shape_tag_lower, Ht | exact Ht].
  - intros [k e] Hkv. apply list_elem_of_filter in Hkv as [_ Hkv]. simpl.
    rewrite (analyze_structure_map self doc Hdoc).
    apply foldl_record_entry_lookup; assumption.
Qed.

Lemma get_elements_by_type_identified_witness :
  all_identified doc_identified = true /\
  NoDup (entries_of None doc_identified).*1 /\
  SVGParser.get_elements_by_type (load_and_analyze SVGParser.init doc_identified) "rect"
  = ids_of ["rect"] doc_identified /\
  ids_of ["rect"] doc_identified = ["box"].
Proof.
  assert (Hnd : NoDup (entries_of None doc_identified).*1)
    by (apply (bool_decide_eq_true_1 _); vm_compute; reflexivity).
  split; [reflexivity|]. split; [exact Hnd|]. split; [|reflexivity].
  exact (get_elements_by_type_identified SVGParser.init doc_identified "rect" eq_refl Hnd).
Defined.

(** ** Runs of the builder *)

Lemma get_svg_size_total (self : SVGParser.t) :
  exists size, SVGParser.get_svg_size self = Ok size.
Proof.
  unfold SVGParser.get_svg_size.
  destruct (SVGParser.svg_doc self) as [[tag a children | data] |]; simpl; eauto.
  destruct (py_float (remove_chars _ (str_or (getAttribute a "width") _)));
    simpl; eauto.
  destruct (py_float (remove_chars _ (str_or (getAttribute a "height") _)));
    simpl; eauto.
Qed.

Lemma get_svg_size_analyzed (self : SVGParser.t) :
  SVGParser.get_svg_size (SVGParser.analyze_structure self).1 = SVGParser.get_svg_size self.
Proof.
  destruct self as [[doc|] eg m]; [|reflexivity].
  unfold SVGParser.analyze_structure, SVGParser._analyze_with_minidom,
    SVGParser.get_svg_size. simpl.
  destruct (SVGParser.process_node doc None _). reflexivity.
Qed.

(** [process_svg] on a file that exists and loads. *)
Lemma process_svg_loaded (self : AnimationBuilder.t) (e : AnimationBuilder.env)
    (cfg : option animation_config) (console : list text) (doc : node)
    (size : pyfloat * pyfloat) :
  AnimationBuilder.path_exists e = true -> AnimationBuilder.file e = Some doc ->
  SVGParser.get_svg_size (loaded (AnimationBuilder.parser self) doc) = Ok size ->
  AnimationBuilder.process_svg self e cfg console =
  match
    convert_svg_to_lottie (AnimationBuilder.lottie_converter self) (Some doc)
      (AnimationBuilder.export_ok e) (completed (configured cfg) size)
      (steps (AnimationBuilder.verbose self) console)
  with
  | Ok (conv, Some an, console') =>
      Ok ({| AnimationBuilder.verbose := AnimationBuilder.verbose self;
             AnimationBuilder.parser := load_and_analyze (AnimationBuilder.parser self) doc;
             AnimationBuilder.lottie_converter := conv |},
          {| AnimationBuilder.success := true;
             AnimationBuilder.output_files :=
               AnimationBuilder.JsonFile
               :: (if AnimationBuilder.preview_ok e then [AnimationBuilder.HtmlFile] else []);
             AnimationBuilder.messages :=
               if AnimationBuilder.preview_ok e then [TPreviewCreated] else [];
             AnimationBuilder.structure_info := Some (report doc size);
             AnimationBuilder.written := Some an |},
          if AnimationBuilder.preview_ok e then console'
          else log (SVGToLottieConverter.verbose conv) TPreviewError console')
  | Ok (conv, None, console') =>
      Ok ({| AnimationBuilder.verbose := AnimationBuilder.verbose self;
             AnimationBuilder.parser := load_and_analyze (AnimationBuilder.parser self) doc;
             AnimationBuilder.lottie_converter := conv |},
          {| AnimationBuilder.success := false;
             AnimationBuilder.output_files := [];
             AnimationBuilder.messages := [TConversionFailed];
             AnimationBuilder.structure_info := Some (report doc size);
             AnimationBuilder.written := None |},
          console')
  | Raise ex => Raise ex
  end.
Proof.
  intros Hpath Hfile Hsize.
  pose proof (analyze_counts (AnimationBuilder.parser self) doc) as (Hg & Hp & Hs).
  pose proof (get_svg_size_analyzed (loaded (AnimationBuilder.parser self) doc)) as Hsame.
  rewrite Hsize in Hsame.
  unfold AnimationBuilder.process_svg, report, steps, completed, configured.
  rewrite Hpath, Hfile. cbn [negb].
  change (SVGParser.load_svg (AnimationBuilder.parser self) (Some doc))
    with (loaded (AnimationBuilder.parser self) doc, true).
  cbv beta iota zeta. cbn [negb].
  unfold load_and_analyze in *.
  destruct (SVGParser.analyze_structure (loaded (AnimationBuilder.parser self) doc))
    as [p2 flat] eqn:Hrun.
  unfold SVGParser.analyze_structure in Hrun. injection Hrun as Hp2 Hflat.
  cbn [fst snd] in *. rewrite Hp2 in Hflat. rewrite Hg, Hp in Hflat. subst flat.
  rewrite Hsame. cbn [mbind result_bind]. unfold SVGParser.get_element_groups.
  rewrite Hg, Hp, Hs.
  destruct (convert_svg_to_lottie _ _ _ _ _) as [[[conv [an|]] console']|ex]; reflexivity.
Qed.

Lemma process_svg_missing (self : AnimationBuilder.t) (e : AnimationBuilder.env)
    (cfg : option animation_config) (console : list text) :
  AnimationBuilder.path_exists e = false ->
  AnimationBuilder.process_svg self e cfg console =
  Ok (self, AnimationBuilder.failed [TInputNotFound], console).
Proof. intros H. unfold AnimationBuilder.process_svg. rewrite H. reflexivity. Qed.

Lemma process_svg_unloadable (self : AnimationBuilder.t) (e : AnimationBuilder.env)
    (cfg : option animation_config) (console : list text) :
  AnimationBuilder.path_exists e = true -> AnimationBuilder.file e = None ->
  AnimationBuilder.process_svg self e cfg console =
  Ok ({| AnimationBuilder.verbose := AnimationBuilder.verbose self;
         AnimationBuilder.parser := (SVGParser.load_svg (AnimationBuilder.parser self) None).1;
         AnimationBuilder.lottie_converter := AnimationBuilder.lottie_converter self |},
      AnimationBuilder.failed [TCannotLoad],
      log (AnimationBuilder.verbose self) (TStep 1) console).
Proof. intros H1 H2. unfold AnimationBuilder.process_svg. rewrite H1, H2. reflexivity. Qed.




Lemma process_svg_outcome (self : AnimationBuilder.t) (e : AnimationBuilder.env)
    (cfg : option animation_config) (console : list text)
    (self' : AnimationBuilder.t) (r : AnimationBuilder.process_result)
    (console' : list text) :
  AnimationBuilder.process_svg self e cfg console = Ok (self', r, console') ->
  (AnimationBuilder.success r = true <->
     AnimationBuilder.path_exists e = true /\ is_Some (AnimationBuilder.file e) /\
     AnimationBuilder.export_ok e = true) /\
  (AnimationBuilder.success r = true <-> is_Some (AnimationBuilder.written r)) /\
  (AnimationBuilder.success r = true ->
     AnimationBuilder.output_files r =
       AnimationBuilder.JsonFile
       :: (if AnimationBuilder.preview_ok e then [AnimationBuilder.HtmlFile] else []) /\
     AnimationBuilder.messages r =
       if AnimationBuilder.preview_ok e then [TPreviewCreated] else []) /\
  (AnimationBuilder.success r = false ->
     AnimationBuilder.output_files r = [] /\
     AnimationBuilder.messages r = [failure_notice e]).
Proof.
  unfold failure_notice.
  destruct (AnimationBuilder.path_exists e) eqn:Hpath.
  2:{ rewrite process_svg_missing by exact Hpath. intros [= <- <- <-]. simpl.
      repeat split; try discriminate; try (intros (H & _); discriminate H);
        intros [x Hx]; discriminate Hx. }
  destruct (AnimationBuilder.file e) as [doc|] eqn:Hfile.
  2:{ rewrite process_svg_unloadable by assumption. intros [= <- <- <-]. simpl.
      repeat split; try discriminate; try (intros (_ & [x Hx] & _); discriminate Hx);
        intros [x Hx]; discriminate Hx. }
  destruct (get_svg_size_total (loaded (AnimationBuilder.parser self) doc)) as [size Hsize].
  rewrite (process_svg_loaded self e cfg console doc size Hpath Hfile Hsize).
  match goal with
  | |- context [convert_svg_to_lottie ?s ?f ?x ?c ?k] =>
      pose proof (convert_not_exported s f c k) as Hexport;
      destruct (convert_svg_to_lottie s f x c k) as [[[conv [an|]] k']|ex'] eqn:Hrun
  end; [| |discriminate].
  - intros [= <- <- <-]. simpl.
    destruct (AnimationBuilder.export_ok e).
    + repeat split; eauto; discriminate.
    + rewrite Hrun in Hexport. discriminate Hexport.
  - intros [= <- <- <-]. simpl.
    assert (Hexp : AnimationBuilder.export_ok e = false).
    { destruct (AnimationBuilder.export_ok e); [|reflexivity].
      apply convert_exported in Hrun. destruct Hrun as [x Hx]. discriminate Hx. }
    rewrite Hexp.
    repeat split; try discriminate; try (intros (_ & _ & H); discriminate H);
      intros [x Hx]; discriminate Hx.
Qed.

(** X16. The result of [process_svg], when it returns.  It reports success
    exactly when the file exists, loads and is exported, and exactly then
    an animation was written.  On success the output files are the JSON
    file, followed by the preview when it could be written, and the only
    message is the notice of the preview.  Otherwise there is no output
    file and exactly one message: input not found, cannot load, or
    conversion failed.  A missing input leaves the builder and the console
    as they were. *)
Theorem process_svg_result_consistent (self : AnimationBuilder.t) (e : AnimationBuilder.env)
    (cfg : option animation_config) (console : list text)
    (self' : AnimationBuilder.t) (r : AnimationBuilder.process_result)
    (console' : list text) :
  AnimationBuilder.process_svg self e cfg console = Ok (self', r, console') ->
  (AnimationBuilder.success r = true <->
     AnimationBuilder.path_exists e = true /\ is_Some (AnimationBuilder.file e) /\
     AnimationBuilder.export_ok e = true) /\
  (AnimationBuilder.success r = true <-> is_Some (AnimationBuilder.written r)) /\
  (AnimationBuilder.success r = true ->
     AnimationBuilder.output_files r =
       AnimationBuilder.JsonFile
       :: (if AnimationBuilder.preview_ok e then [AnimationBuilder.HtmlFile] else []) /\
     AnimationBuilder.messages r =
       if AnimationBuilder.preview_ok e then [TPreviewCreated] else []) /\
  (AnimationBuilder.success r = false ->
     AnimationBuilder.output_files r = [] /\
     AnimationBuilder.messages r = [failure_notice e]) /\
  (AnimationBuilder.path_exists e = false -> self' = self /\ console' = console).
Proof.
  intros Hrun. destruct (process_svg_outcome _ _ _ _ _ _ _ Hrun) as (H1 & H2 & H3 & H4).
  do 4 (split; [assumption|]).
  intros Hpath. rewrite process_svg_missing in Hrun by exact Hpath.
  injection Hrun as <- _ <-. auto.
Qed.

Lemma process_svg_result_consistent_witness :
  exists self' r console',
    AnimationBuilder.process_svg (AnimationBuilder.init false) (fair_env doc_one_path)
      None [] = Ok (self', r, console') /\
    AnimationBuilder.success r = true /\
    AnimationBuilder.output_files r = [AnimationBuilder.JsonFile; AnimationBuilder.HtmlFile].
Proof.
  eassert (H : AnimationBuilder.process_svg (AnimationBuilder.init false)
                 (fair_env doc_one_path) None [] = Ok (_, _, _))
    by (vm_compute; reflexivity).
  eexists _, _, _. split; [exact H|].
  destruct (process_svg_result_consistent _ _ _ _ _ _ _ H) as (_ & _ & H3 & _).
  split; [reflexivity|]. exact (proj1 (H3 eq_refl)).
Defined.

Lemma get_svg_size_loaded (self : SVGParser.t) (doc : node) :
  SVGParser.get_svg_size (loaded self doc) = document_size doc.
Proof. reflexivity. Qed.

(** What a run that returns has written, in terms of the document. *)
Lemma process_svg_written (self : AnimationBuilder.t) (e : AnimationBuilder.env)
    (cfg : option animation_config) (console : list text) self' r console' an :
  AnimationBuilder.process_svg self e cfg console = Ok (self', r, console') ->
  AnimationBuilder.written r = Some an ->
  exists doc size,
    AnimationBuilder.path_exists e = true /\ AnimationBuilder.file e = Some doc /\
    document_size doc = Ok size /\
    width an = default size.1 (cfg_width (configured cfg)) /\
    height an = default size.2 (cfg_height (configured cfg)) /\
    n_frames an = default 90 (cfg_n_frames (configured cfg)) /\
    framerate an = default 30 (cfg_framerate (configured cfg)).
Proof.
  destruct (AnimationBuilder.path_exists e) eqn:Hpath.
  2:{ rewrite process_svg_missing by exact Hpath. intros [= <- <- <-]. discriminate. }
  destruct (AnimationBuilder.file e) as [doc|] eqn:Hfile.
  2:{ rewrite process_svg_unloadable by assumption. intros [= <- <- <-]. discriminate. }
  destruct (get_svg_size_total (loaded (AnimationBuilder.parser self) doc)) as [size Hsize].
  rewrite (process_svg_loaded self e cfg console doc size Hpath Hfile Hsize).
  destruct (convert_svg_to_lottie _ _ _ _ _) as [[[conv [an'|]] k']|ex'] eqn:Hrun;
    [| |discriminate]; intros [= <- <- <-]; [|discriminate].
  intros [= <-]. exists doc, size. do 2 (split; [reflexivity|]). split; [exact Hsize|].
  destruct (AnimationBuilder.export_ok e).
  - pose proof (convert_written (AnimationBuilder.lottie_converter self) doc
                  (completed (configured cfg) size)
                  (steps (AnimationBuilder.verbose self) console)) as Hw.
    rewrite Hrun in Hw. simpl in Hw.
    destruct (background_layer _ _ _); [|discriminate Hw].
    injection Hw as ->. repeat split.
  - pose proof (convert_not_exported (AnimationBuilder.lottie_converter self) (Some doc)
                  (completed (configured cfg) size)
                  (steps (AnimationBuilder.verbose self) console)) as Hn.
    rewrite Hrun in Hn. discriminate Hn.
Qed.

(** X17. The canvas of the animation that [process_svg] writes: its width
    and its height are those of the configuration where it gives them and
    the declared size of the document otherwise; the number of frames and
    the frame rate default to 90 and 30. *)
Theorem process_svg_canvas (self : AnimationBuilder.t) (e : AnimationBuilder.env)
    (cfg : option animation_config) (console : list text)
    (self' : AnimationBuilder.t) (r : AnimationBuilder.process_result)
    (console' : list text) (an : Animation) :
  AnimationBuilder.process_svg self e cfg console = Ok (self', r, console') ->
  AnimationBuilder.written r = Some an ->
  exists doc size,
    AnimationBuilder.file e = Some doc /\ document_size doc = Ok size /\
    width an = default size.1 (cfg_width (configured cfg)) /\
    height an = default size.2 (cfg_height (configured cfg)) /\
    n_frames an = default 90 (cfg_n_frames (configured cfg)) /\
    framerate an = default 30 (cfg_framerate (configured cfg)).
Proof.
  intros Hrun Han.
  destruct (process_svg_written _ _ _ _ _ _ _ _ Hrun Han) as (doc & size & _ & H).
  exists doc, size. exact H.
Qed.

Lemma process_svg_canvas_witness :
  exists self' r console' an,
    AnimationBuilder.process_svg (AnimationBuilder.init false)
      (fair_env (doc_sized "100" "50")) None [] = Ok (self', r, console') /\
    AnimationBuilder.written r = Some an /\
    width an = Fin 100 /\ height an = Fin 50 /\ n_frames an = 90 /\ framerate an = 30.
Proof.
  eassert (H : AnimationBuilder.process_svg (AnimationBuilder.init false)
                 (fair_env (doc_sized "100" "50")) None [] = Ok (_, _, _))
    by (vm_compute; reflexivity).
  eexists _, _, _, _. split; [exact H|]. split; [reflexivity|].
  destruct (process_svg_canvas _ _ _ _ _ _ _ _ H eq_refl)
    as (doc & size & Hfile & Hsize & Hw & Hh & Hn & Hf).
  injection Hfile as <-. vm_compute in Hsize. injection Hsize as <-.
  repeat split; assumption.
Defined.

(** X18. The structure report in the result of [process_svg].  When the
    file exists and loads, the report holds the numbers of group, path and
    shape elements of the document at any depth, the flatness verdict
    (fewer than 3 groups and more than 20 paths) and the declared size;
    when the file does not exist or does not load there is no report. *)
Theorem process_svg_structure_info (self : AnimationBuilder.t) (e : AnimationBuilder.env)
    (cfg : option animation_config) (console : list text)
    (self' : AnimationBuilder.t) (r : AnimationBuilder.process_result)
    (console' : list text) :
  AnimationBuilder.process_svg self e cfg console = Ok (self', r, console') ->
  (forall doc,
     AnimationBuilder.path_exists e = true -> AnimationBuilder.file e = Some doc ->
     exists size,
       document_size doc = Ok size /\
       AnimationBuilder.structure_info r = Some (report doc size)) /\
  (AnimationBuilder.path_exists e = false \/ AnimationBuilder.file e = None ->
   AnimationBuilder.structure_info r = None).
Proof.
  destruct (AnimationBuilder.path_exists e) eqn:Hpath.
  2:{ rewrite process_svg_missing by exact Hpath. intros [= <- <- <-].
      split; [discriminate|reflexivity]. }
  destruct (AnimationBuilder.file e) as [doc|] eqn:Hfile.
  2:{ rewrite process_svg_unloadable by assumption. intros [= <- <- <-].
      split; [discriminate|reflexivity]. }
  destruct (get_svg_size_total (loaded (AnimationBuilder.parser self) doc)) as [size Hsize].
  rewrite (process_svg_loaded self e cfg console doc size Hpath Hfile Hsize).
  destruct (convert_svg_to_lottie _ _ _ _ _) as [[[conv [an'|]] k']|ex'];
    [| |discriminate]; intros [= <- <- <-];
    (split; [intros doc' _ [= <-]; exists size; split; [exact Hsize|reflexivity]
            |intros [H|H]; discriminate H]).
Qed.

Lemma process_svg_structure_info_witness :
  exists self' r console',
    AnimationBuilder.process_svg (AnimationBuilder.init false) (fair_env doc_identified)
      None [] = Ok (self', r, console') /\
    AnimationBuilder.structure_info r = Some (report doc_identified (Fin 800, Fin 600)) /\
    AnimationBuilder.n_shapes (report doc_identified (Fin 800, Fin 600)) = 2%nat.
Proof.
  eassert (H : AnimationBuilder.process_svg (AnimationBuilder.init false)
                 (fair_env doc_identified) None [] = Ok (_, _, _))
    by (vm_compute; reflexivity).
  eexists _, _, _. split; [exact H|]. split; [|reflexivity].
  destruct (proj1 (process_svg_structure_info _ _ _ _ _ _ _ H) doc_identified
              eq_refl eq_refl) as (size & Hsize & Hinfo).
  vm_compute in Hsize. injection Hsize as <-. exact Hinfo.
Defined.



(** ** File names *)

Import AnimationBuilder(batch_result, batch_success, total_files, processed_files,
  failed_files, results, batch_step, batch_process, is_svg_name, config_after).

Lemma lower_app (s t : string) : lower (s +:+ t) = lower s +:+ lower t.
Proof.
  induction s as [|c s IH]; [reflexivity|].
  change (String c s +:+ t) with (String c (s +:+ t)). simpl. rewrite IH. reflexivity.
Qed.

Lemma substring_app_r (s p : string) :
  String.substring (String.length s) (String.length p) (s +:+ p) = p.
Proof.
  induction s as [|c s IH].
  - change ("" +:+ p) with p. simpl. induction p as [|c p IHp]; [reflexivity|].
    simpl. rewrite IHp. reflexivity.
  - change (String c s +:+ p) with (String c (s +:+ p)). simpl. exact IH.
Qed.

Lemma length_app_string (s p : string) :
  String.length (s +:+ p) = (String.length s + String.length p)%nat.
Proof.
  induction s as [|c s IH]; [reflexivity|].
  change (String c s +:+ p) with (String c (s +:+ p)). simpl. rewrite IH. reflexivity.
Qed.

Lemma substring_split (n : nat) (s : string) :
  (n <= String.length s)%nat ->
  s = String.substring 0 n s +:+ String.substring n (String.length s - n) s.
Proof.
  revert s. induction n as [|n IH]; intros s Hn.
  - rewrite Nat.sub_0_r. symmetry.
    replace (String.substring 0 0 s) with "" by (destruct s; reflexivity).
    exact (substring_app_r "" s).
  - destruct s as [|c s]; [simpl in Hn; lia|]. simpl in Hn.
    change (String.substring 0 (S n) (String c s)) with (String c (String.substring 0 n s)).
    change (String.substring (S n) (String.length (String c s) - S n) (String c s))
      with (String.substring n (String.length s - n) s).
    change (String c (String.substring 0 n s) +:+ ?x)
      with (String c (String.substring 0 n s +:+ x)).
    f_equal. apply IH. lia.
Qed.

Lemma endswith_spec (p s : string) :
  endswith p s = true <-> exists t, s = t +:+ p.
Proof.
  unfold endswith. rewrite andb_true_iff, bool_decide_eq_true, Nat.leb_le. split.
  - intros [Hlen Hsub].
    exists (String.substring 0 (String.length s - String.length p) s).
    pose proof (substring_split (String.length s - String.length p) s ltac:(lia)) as Hsplit.
    replace (String.length s - (String.length s - String.length p))%nat
      with (String.length p) in Hsplit by lia.
    rewrite Hsub in Hsplit. exact Hsplit.
  - intros [t ->]. rewrite length_app_string. split; [lia|].
    replace (String.length t + String.length p - String.length p)%nat
      with (String.length t) by lia.
    apply substring_app_r.
Qed.

Lemma lower_split (s t p : string) :
  lower s = t +:+ p -> exists s1 s2, s = s1 +:+ s2 /\ lower s1 = t /\ lower s2 = p.
Proof.
  revert s. induction t as [|c t IH]; intros s H.
  - exists "", s. auto.
  - change (String c t +:+ p) with (String c (t +:+ p)) in H.
    destruct s as [|d s]; [discriminate H|]. simpl in H. injection H as Hc Hs.
    destruct (IH s Hs) as (s1 & s2 & -> & H1 & H2).
    exists (String d s1), s2. simpl. rewrite Hc, H1. auto.
Qed.

(** X20. The file filter of [batch_process] takes a name exactly when it
    ends in [.svg] written in any letter case; the part in front of the
    suffix may be empty. *)
Theorem svg_name_any_case (file_name : string) :
  is_svg_name file_name = true <->
  exists stem suffix, file_name = stem +:+ suffix /\ lower suffix = ".svg".
Proof.
  unfold is_svg_name. rewrite endswith_spec. split.
  - intros [t Ht]. destruct (lower_split _ _ _ Ht) as (s1 & s2 & -> & _ & H2). eauto.
  - intros (stem & suffix & -> & Hs). exists (lower stem). rewrite lower_app, Hs. reflexivity.
Qed.

(** ** Batches *)

Lemma batch_step_result (n : nat) self cfg r console item self1 cfg1 r1 console1 :
  batch_step n (self, cfg, r, console) item = Ok (self1, cfg1, r1, console1) ->
  exists file_result printed,
    AnimationBuilder.process_svg self item.2.2 cfg [] = Ok (self1, file_result, printed) /\
    cfg1 = config_after self item.2.2 cfg /\
    total_files r1 = total_files r /\
    results r1 = results r ++ [file_result] /\
    processed_files r1
      = (processed_files r + if AnimationBuilder.success file_result then 1 else 0)%nat /\
    failed_files r1
      = (failed_files r + if AnimationBuilder.success file_result then 0 else 1)%nat /\
    batch_success r1 = batch_success r && AnimationBuilder.success file_result.
Proof.
  unfold batch_step.
  destruct (AnimationBuilder.process_svg self item.2.2 cfg [])
    as [[[self2 file_result] printed]|ex]; [|discriminate].
  cbn [mbind result_bind]. intros [= <- <- <- <-].
  exists file_result, printed.
  destruct (AnimationBuilder.success file_result); simpl;
    rewrite ?andb_true_r, ?andb_false_r, ?Nat.add_0_r; repeat split.
Qed.

Lemma batch_loop_counts (n : nat) (items : list (nat * (string * AnimationBuilder.env))) :
  forall self cfg r console self' cfg' r' console',
    for_each (batch_step n) (self, cfg, r, console) items = Ok (self', cfg', r', console') ->
    total_files r' = total_files r /\
    (exists new, results r' = results r ++ new /\ length new = length items /\
       processed_files r' = (processed_files r + length (filter succeeded new))%nat /\
       failed_files r' = (failed_files r + length (filter (fun x => ~ succeeded x) new))%nat /\
       batch_success r' = batch_success r && bool_decide (Forall succeeded new)).
Proof.
  induction items as [|item items IH]; intros self cfg r console self' cfg' r' console' Hrun.
  - simpl in Hrun. injection Hrun as <- <- <- <-. split; [reflexivity|].
    exists []. rewrite app_nil_r, !Nat.add_0_r, andb_true_r. repeat split.
  - cbn [for_each] in Hrun.
    destruct (batch_step n (self, cfg, r, console) item)
      as [[[[self1 cfg1] r1] console1]|ex] eqn:Hstep; [|discriminate Hrun].
    cbn [mbind result_bind] in Hrun.
    apply batch_step_result in Hstep
      as (file_result & printed & _ & _ & Ht1 & Hr1 & Hp1 & Hf1 & Hs1).
    apply IH in Hrun as (Htotal & new & Hres & Hlen & Hproc & Hfail & Hsucc).
    split; [congruence|]. exists (file_result :: new).
    rewrite Hres, Hr1, <- app_assoc, Hproc, Hfail, Hsucc, Hp1, Hf1, Hs1. simpl.
    rewrite !filter_cons.
    destruct (decide (succeeded file_result)) as [Hs|Hs].
    + rewrite decide_False by (intros H; exact (H Hs)).
      pose proof Hs as Hs'. unfold succeeded in Hs'. rewrite Hs'.
      simpl. repeat split; try lia.
      rewrite andb_true_r. f_equal. apply bool_decide_ext. rewrite Forall_cons. tauto.
    + rewrite decide_True by exact Hs.
      assert (Hs' : AnimationBuilder.success file_result = false)
        by (unfold succeeded in Hs; destruct (AnimationBuilder.success file_result);
            congruence).
      rewrite Hs'. simpl. repeat split; try lia.
      rewrite (bool_decide_eq_false_2 (Forall succeeded (file_result :: new)))
        by (rewrite Forall_cons; tauto).
      rewrite !andb_false_r. reflexivity.
Qed.

Lemma Forall_no_complement {A} (P : A -> Prop) `{!forall x, Decision (P x)} (l : list A) :
  Forall P l <-> length (filter (fun x => ~ P x) l) = 0%nat.
Proof.
  induction l as [|x l IH]; [split; [reflexivity|constructor]|].
  rewrite Forall_cons, filter_cons.
  destruct (decide (~ P x)) as [Hx|Hx]; simpl.
  - split; [tauto|discriminate].
  - rewrite <- IH. apply dec_stable in Hx. tauto.
Qed.

(** X21. The counters of [batch_process], when it returns.  The total is
    the number of listed files whose name ends in [.svg] in any letter
    case; there is one result for each of them; the processed files are
    the results that report success, processed and failed files add up to
    the total, and the batch reports success exactly when no file failed,
    that is when every result reports success. *)
Theorem batch_process_counts (self : AnimationBuilder.t)
    (walk : list (string * AnimationBuilder.env)) (cfg : option animation_config)
    (console : list AnimationBuilder.batch_text)
    (self' : AnimationBuilder.t) (r : batch_result)
    (console' : list AnimationBuilder.batch_text) :
  batch_process self walk cfg console = Ok (self', r, console') ->
  total_files r = length (svg_files walk) /\
  length (results r) = total_files r /\
  processed_files r = length (filter succeeded (results r)) /\
  (processed_files r + failed_files r = total_files r)%nat /\
  (batch_success r = true <-> failed_files r = 0%nat) /\
  (batch_success r = true <-> Forall succeeded (results r)).
Proof.
  unfold batch_process. fold (svg_files walk).
  destruct (for_each _ _ _) as [[[[self1 cfg1] r1] console1]|ex] eqn:Hrun; [|discriminate].
  intros [= <- <- <-].
  apply batch_loop_counts in Hrun as (Htotal & new & Hres & Hlen & Hproc & Hfail & Hsucc).
  simpl in *. subst new.
  unfold enumerate in Hlen. rewrite length_imap in Hlen.
  pose proof (Permutation_length (filter_app_complement succeeded (results r1))) as Hsplit.
  rewrite length_app in Hsplit.
  rewrite Htotal, Hproc, Hfail, Hsucc, Hlen, bool_decide_eq_true.
  repeat split; try lia; try tauto; apply Forall_no_complement.
Qed.

Lemma batch_process_counts_witness :
  exists self' r console',
    batch_process (AnimationBuilder.init false) walk_two_sizes None []
      = Ok (self', r, console') /\
    total_files r = 2%nat /\ length (results r) = 2%nat /\
    (processed_files r + failed_files r = 2)%nat.
Proof.
  eassert (H : batch_process (AnimationBuilder.init false) walk_two_sizes None []
               = Ok (_, _, _))
    by (vm_compute; reflexivity).
  eexists _, _, _. split; [exact H|].
  destruct (batch_process_counts _ _ _ _ _ _ _ H) as (H1 & H2 & _ & H4 & _).
  split; [exact H1|]. split; [exact H2|exact H4].
Defined.

(** The dictionary after a call, in terms of the document. *)
Lemma config_after_loaded (self : AnimationBuilder.t) (e : AnimationBuilder.env)
    (c : animation_config) :
  config_after self e (Some c) =
  Some (if AnimationBuilder.path_exists e
        then match AnimationBuilder.file e with
             | Some doc =>
                 match document_size doc with
                 | Ok size => completed c size
                 | Raise _ => c
                 end
             | None => c
             end
        else c).
Proof.
  unfold config_after.
  destruct (AnimationBuilder.path_exists e); [|reflexivity].
  destruct (AnimationBuilder.file e) as [doc|]; [|reflexivity].
  cbn [negb]. change (SVGParser.load_svg ?p (Some doc)) with (loaded p doc, true).
  cbv beta iota zeta. cbn [negb].
  rewrite get_svg_size_analyzed, get_svg_size_loaded.
  destruct (document_size doc); reflexivity.
Qed.

Lemma batch_loop_shared (n : nat) (items : list (nat * (string * AnimationBuilder.env))) :
  forall self c r console self' cfg' r' console',
    for_each (batch_step n) (self, Some c, r, console) items
      = Ok (self', cfg', r', console') ->
    exists new,
      results r' = results r ++ new /\
      forall file_result an,
        file_result ∈ new -> AnimationBuilder.written file_result = Some an ->
        exists doc size,
          first_loaded items.*2 = Some doc /\ document_size doc = Ok size /\
          width an = default size.1 (cfg_width c) /\
          height an = default size.2 (cfg_height c).
Proof.
  induction items as [|item items IH]; intros self c r console self' cfg' r' console' Hrun.
  - simpl in Hrun. injection Hrun as <- <- <- <-. exists []. rewrite app_nil_r.
    split; [reflexivity|]. intros fr an Hin. apply elem_of_nil in Hin. contradiction.
  - cbn [for_each] in Hrun.
    destruct (batch_step n (self, Some c, r, console) item)
      as [[[[self1 cfg1] r1] console1]|ex] eqn:Hstep; [|discriminate Hrun].
    cbn [mbind result_bind] in Hrun.
    apply batch_step_result in Hstep
      as (file_result & printed & Hcall & Hcfg & _ & Hr1 & _).
    rewrite config_after_loaded in Hcfg. subst cfg1.
    apply IH in Hrun as (new & Hres & Hnew).
    exists (file_result :: new). rewrite Hres, Hr1, <- app_assoc. split; [reflexivity|].
    intros fr an Hin Han. rewrite fmap_cons. cbn [first_loaded].
    apply elem_of_cons in Hin as [->|Hin].
    + destruct (process_svg_written _ _ _ _ _ _ _ _ Hcall Han)
        as (doc & size & -> & -> & Hsize & Hw & Hh & _).
      exists doc, size. auto.
    + destruct (Hnew fr an Hin Han) as (doc' & size' & Hfirst & Hsize' & Hw & Hh).
      destruct (AnimationBuilder.path_exists item.2.2); [|eauto 10].
      destruct (AnimationBuilder.file item.2.2) as [doc|]; [|eauto 10].
      destruct (document_size doc) as [size|ex] eqn:Hsize.
      * exists doc, size. simpl in Hw, Hh. auto.
      * exfalso. unfold document_size in Hsize.
        destruct (get_svg_size_total (loaded SVGParser.init doc)) as [s Hs]. congruence.
Qed.

Lemma enumerate_values {A} (l : list A) : (enumerate l).*2 = l.
Proof.
  unfold enumerate.
  assert (H : forall f : nat -> A -> nat * A,
            (forall i x, (f i x).2 = x) -> (imap f l).*2 = l).
  { induction l as [|x l IH]; intros f Hf; [reflexivity|].
    simpl. rewrite Hf. f_equal. apply IH. intros i y. apply Hf. }
  apply H. reflexivity.
Qed.

(** X22. A batch that is handed a configuration dictionary.  Every call
    of [process_svg] completes the same dictionary, so the width and the
    height that the first loaded document writes into it stay for all
    later files: every animation that the batch writes has the width and
    the height of the configuration where it gives them and otherwise the
    declared size of the first listed SVG file that exists and loads,
    whatever the size of its own document. *)
Theorem batch_shares_configuration (self : AnimationBuilder.t)
    (walk : list (string * AnimationBuilder.env)) (cfg : animation_config)
    (console : list AnimationBuilder.batch_text)
    (self' : AnimationBuilder.t) (r : batch_result)
    (console' : list AnimationBuilder.batch_text) :
  batch_process self walk (Some cfg) console = Ok (self', r, console') ->
  forall file_result an,
    file_result ∈ results r -> AnimationBuilder.written file_result = Some an ->
    exists doc size,
      first_loaded (svg_files walk) = Some doc /\ document_size doc = Ok size /\
      width an = default size.1 (cfg_width cfg) /\
      height an = default size.2 (cfg_height cfg).
Proof.
  unfold batch_process. fold (svg_files walk).
  destruct (for_each _ _ _) as [[[[self1 cfg1] r1] console1]|ex] eqn:Hrun; [|discriminate].
  intros [= <- <- <-].
  apply batch_loop_shared in Hrun as (new & Hres & Hnew).
  simpl in Hres. subst new. rewrite enumerate_values in Hnew. exact Hnew.
Qed.

Lemma batch_shares_configuration_witness :
  exists self' r console',
    batch_process (AnimationBuilder.init false) walk_two_sizes (Some empty_config) []
      = Ok (self', r, console') /\
    length (results r) = 2%nat /\
    forall file_result an,
      file_result ∈ results r -> AnimationBuilder.written file_result = Some an ->
      width an = Fin 100 /\ height an = Fin 50.
Proof.
  eassert (H : batch_process (AnimationBuilder.init false) walk_two_sizes
                 (Some empty_config) [] = Ok (_, _, _))
    by (vm_compute; reflexivity).
  eexists _, _, _. split; [exact H|]. split; [reflexivity|].
  intros file_result an Hin Han.
  destruct (batch_shares_configuration _ _ _ _ _ _ _ H file_result an Hin Han)
    as (doc & size & Hfirst & Hsize & Hw & Hh).
  vm_compute in Hfirst. injection Hfirst as <-.
  vm_compute in Hsize. injection Hsize as <-.
  split; assumption.
Defined.

Section Loop.

(** A property of the dictionary that every call of [process_svg] keeps. *)
Variable kept : option animation_config -> Prop.
Hypothesis kept_after : forall self e cfg, kept cfg -> kept (config_after self e cfg).

Lemma batch_loop_results (n : nat) (items : list (nat * (string * AnimationBuilder.env))) :
  forall self cfg r console self' cfg' r' console',
    kept cfg ->
    for_each (batch_step n) (self, cfg, r, console) items = Ok (self', cfg', r', console') ->
    exists new,
      results r' = results r ++ new /\
      Forall2 (fun item file_result =>
                 exists builder cfg builder' printed,
                   kept cfg /\
                   AnimationBuilder.process_svg builder item.2 cfg []
                   = Ok (builder', file_result, printed))
              items.*2 new.
Proof.
  induction items as [|item items IH];
    intros self cfg r console self' cfg' r' console' Hkept Hrun.
  - simpl in Hrun. injection Hrun as <- <- <- <-. exists []. rewrite app_nil_r.
    split; [reflexivity|constructor].
  - cbn [for_each] in Hrun.
    destruct (batch_step n (self, cfg, r, console) item)
      as [[[[self1 cfg1] r1] console1]|ex] eqn:Hstep; [|discriminate Hrun].
    cbn [mbind result_bind] in Hrun.
    apply batch_step_result in Hstep
      as (file_result & printed & Hcall & Hcfg & _ & Hr1 & _).
    subst cfg1. apply IH in Hrun as (new & Hres & Hnew); [|apply kept_after, Hkept].
    exists (file_result :: new). rewrite Hres, Hr1, <- app_assoc. split; [reflexivity|].
    rewrite fmap_cons. constructor; [|exact Hnew]. eauto 10.
Qed.

Hypothesis kept_returns : forall self e cfg console,
  kept cfg -> exists out, AnimationBuilder.process_svg self e cfg console = Ok out.


End Loop.




(** X24. The results of [batch_process] stand in the order of the listed
    SVG files, one for each: the result of a file reports success exactly
    when that file exists, loads and is exported, and its messages are the
    notice of the preview on success (when the preview could be written)
    and the one failure notice of that file otherwise. *)
Theorem batch_results_by_file (self : AnimationBuilder.t)
    (walk : list (string * AnimationBuilder.env)) (cfg : option animation_config)
    (console : list AnimationBuilder.batch_text)
    (self' : AnimationBuilder.t) (r : batch_result)
    (console' : list AnimationBuilder.batch_text) :
  batch_process self walk cfg console = Ok (self', r, console') ->
  Forall2 (fun item file_result =>
             (succeeded file_result <->
                AnimationBuilder.path_exists item.2 = true /\
                is_Some (AnimationBuilder.file item.2) /\
                AnimationBuilder.export_ok item.2 = true) /\
             AnimationBuilder.messages file_result =
               if AnimationBuilder.success file_result
               then (if AnimationBuilder.preview_ok item.2 then [TPreviewCreated] else [])
               else [failure_notice item.2])
          (svg_files walk) (results r).
Proof.
  unfold batch_process. fold (svg_files walk).
  destruct (for_each _ _ _) as [[[[self1 cfg1] r1] console1]|ex] eqn:Hrun; [|discriminate].
  intros [= <- <- <-].
  apply (batch_loop_results (fun _ => True)) in Hrun as (new & Hres & Hnew); [|auto|exact I].
  simpl in Hres. subst new. rewrite enumerate_values in Hnew.
  eapply Forall2_impl; [exact Hnew|]. clear.
  intros item fr (builder & cfg & builder' & printed & _ & Hcall).
  apply process_svg_outcome in Hcall as (H1 & _ & H3 & H4).
  split; [exact H1|].
  destruct (AnimationBuilder.success fr); [apply H3|apply H4]; reflexivity.
Qed.

Lemma batch_results_by_file_witness :
  exists self' r console',
    batch_process (AnimationBuilder.init false) walk_two_sizes None []
      = Ok (self', r, console') /\
    Forall2 (fun item file_result =>
               succeeded file_result <->
               AnimationBuilder.path_exists item.2 = true /\
               is_Some (AnimationBuilder.file item.2) /\
               AnimationBuilder.export_ok item.2 = true)
            (svg_files walk_two_sizes) (results r).
Proof.
  eassert (H : batch_process (AnimationBuilder.init false) walk_two_sizes None []
               = Ok (_, _, _))
    by (vm_compute; reflexivity).
  eexists _, _, _. split; [exact H|].
  eapply Forall2_impl; [exact (batch_results_by_file _ _ _ _ _ _ _ H)|].
  intros item file_result [Hs _]. exact Hs.
Defined.

(** X25. A batch that is handed no configuration: every animation that it
    writes has the declared size of its own document, the one listed at
    the position of its result. *)
Theorem batch_without_configuration (self : AnimationBuilder.t)
    (walk : list (string * AnimationBuilder.env))
    (console : list AnimationBuilder.batch_text)
    (self' : AnimationBuilder.t) (r : batch_result)
    (console' : list AnimationBuilder.batch_text) :
  batch_process self walk None console = Ok (self', r, console') ->
  Forall2 (fun item file_result =>
             forall an, AnimationBuilder.written file_result = Some an ->
               exists doc size,
                 AnimationBuilder.file item.2 = Some doc /\
                 document_size doc = Ok size /\
                 width an = size.1 /\ height an = size.2)
          (svg_files walk) (results r).
Proof.
  unfold batch_process. fold (svg_files walk).
  destruct (for_each _ _ _) as [[[[self1 cfg1] r1] console1]|ex] eqn:Hrun; [|discriminate].
  intros [= <- <- <-].
  apply (batch_loop_results (fun cfg => cfg = None)) in Hrun as (new & Hres & Hnew);
    [|intros s e c ->; reflexivity|reflexivity].
  simpl in Hres. subst new. rewrite enumerate_values in Hnew.
  eapply Forall2_impl; [exact Hnew|]. clear.
  intros item fr (builder & cfg & builder' & printed & -> & Hcall) an Han.
  destruct (process_svg_written _ _ _ _ _ _ _ _ Hcall Han)
    as (doc & size & _ & Hfile & Hsize & Hw & Hh & _).
  exists doc, size. auto.
Qed.

Lemma batch_without_configuration_witness :
  exists self' r console',
    batch_process (AnimationBuilder.init false) walk_two_sizes None []
      = Ok (self', r, console') /\
    (width <$> (results r !! 1%nat ≫= AnimationBuilder.written)) = Some (Fin 640) /\
    Forall2 (fun item file_result =>
               forall an, AnimationBuilder.written file_result = Some an ->
                 exists doc size,
                   AnimationBuilder.file item.2 = Some doc /\
                   document_size doc = Ok size /\
                   width an = size.1 /\ height an = size.2)
            (svg_files walk_two_sizes) (results r).
Proof.
  eassert (H : batch_process (AnimationBuilder.init false) walk_two_sizes None []
               = Ok (_, _, _))
    by (vm_compute; reflexivity).
  eexists _, _, _. split; [exact H|]. split; [reflexivity|].
  exact (batch_without_configuration _ _ _ _ _ _ H).
Defined.
